(** * convert_h5_weights.py: extraction and packing of dense-layer weights

    A shallow embedding of [src/convert_h5_weights.py]: the Extractor
    [extract_h5_weights], the Packer [create_tfjs_weights] and the driver
    [main], over an explicit model of what the script touches: a file system,
    the HDF5 containers stored in it, and the console.

    Python exceptions are values of [exn]; a computation is a function from
    a state to a [result] and a new state. *)

From Stdlib Require Import ZArith Lia Ascii String.
From stdpp Require Import gmap strings list fin_maps.

Local Open Scope Z_scope.
Local Open Scope string_scope.
Local Open Scope list_scope.

(** ** Exceptions and the state-and-exception monad *)

(** The exception classes that the modelled library calls raise.  All of them
    derive from [Exception], so [except Exception] catches every one. *)
Inductive exn : Type :=
| KeyError            (* group[name] on a missing member *)
| TypeError           (* an operation applied to the wrong kind of node *)
| ValueError          (* a dataset that cannot be sliced with [:] *)
| OSError             (* h5py.File on something that is not a container *)
| FileNotFoundError   (* a missing file, or a missing parent directory *)
| FileExistsError     (* makedirs on a path taken by a regular file *)
| NotADirectoryError  (* a regular file used as a directory *)
| IsADirectoryError.  (* open() or h5py.File on a directory *)

Inductive result (A : Type) : Type :=
| Ok (a : A)
| Raise (e : exn).
Arguments Ok {A} a.
Arguments Raise {A} e.

(** [M S A]: a statement sequence running on a state [S], which returns an
    [A] or raises; the state reached is kept in both cases. *)
Definition M (S A : Type) : Type := S -> result A * S.

Definition ret {S A : Type} (a : A) : M S A := fun s => (Ok a, s).

Definition raise {S A : Type} (e : exn) : M S A := fun s => (Raise e, s).

Definition bind {S A B : Type} (c : M S A) (k : A -> M S B) : M S B :=
  fun s =>
    match c s with
    | (Ok a, s') => k a s'
    | (Raise e, s') => (Raise e, s')
    end.

Notation "x <- c ;; k" := (bind c (fun x => k))
  (at level 62, c at next level, right associativity).
Notation "c ;;; k" := (bind c (fun _ => k))
  (at level 62, right associativity).

(** ** numpy arrays *)

(** An array is its shape and its elements in row-major (C) order, the order
    in which [tobytes()] emits them. *)
Record ndarray (A : Type) : Type := mk_ndarray {
  shape : list nat;
  data : list A
}.
Arguments mk_ndarray {A} shape data.
Arguments shape {A} _.
Arguments data {A} _.

(** [ndarray.size]: the product of the dimensions. *)
Definition size_of_shape (sh : list nat) : nat := fold_right Nat.mul 1%nat sh.

Definition ndarray_size {A : Type} (a : ndarray A) : nat := size_of_shape (shape a).

(** Every array numpy builds holds exactly [size] elements. *)
Definition ndarray_wf {A : Type} (a : ndarray A) : Prop :=
  length (data a) = ndarray_size a.

(** A float32 is kept as its IEEE-754 binary32 bit pattern, a 32-bit word.
    [float32_tobytes] is its memory image on a little-endian machine, least
    significant byte first; bytes are integers in [0, 256). *)
Definition float32_tobytes (w : Z) : list Z :=
  [ Z.land w 255;
    Z.land (Z.shiftr w 8) 255;
    Z.land (Z.shiftr w 16) 255;
    Z.land (Z.shiftr w 24) 255 ].

(** [ndarray.tobytes()] of a float32 array: the elements in row-major order,
    four bytes each, nothing in between. *)
Definition tobytes (a : ndarray Z) : list Z :=
  concat (map float32_tobytes (data a)).

(** [ndarray.nbytes] of a float32 array: [itemsize * size] with itemsize 4. *)
Definition nbytes (a : ndarray Z) : nat := (4 * ndarray_size a)%nat.

(** Reading back: one little-endian float32 from four bytes, and
    [np.frombuffer(buf, dtype='<f4')] over a whole buffer.  A last fragment
    of fewer than four bytes is dropped; [reshape] then fails on the count. *)
Definition float32_frombytes (b0 b1 b2 b3 : Z) : Z :=
  Z.lor b0 (Z.lor (Z.shiftl b1 8) (Z.lor (Z.shiftl b2 16) (Z.shiftl b3 24))).

Fixpoint frombuffer (buf : list Z) : list Z :=
  match buf with
  | b0 :: b1 :: b2 :: b3 :: rest => float32_frombytes b0 b1 b2 b3 :: frombuffer rest
  | _ => []
  end.

(** [arr.reshape(sh)]: fails unless the element count matches. *)
Definition reshape (sh : list nat) (elems : list Z) : option (ndarray Z) :=
  if decide (length elems = size_of_shape sh) then Some (mk_ndarray sh elems)
  else None.

(** ** The console *)

(** Each [print] of the script is recorded as one [diag], holding the values
    its f-string interpolates; the layout of the text (the upper-casing of
    the model name in the banner included) is not modelled. *)
Inductive diag : Type :=
| StructureHeader (h5_file_path : string)
| StructureLine (name : string) (shp : option (list nat))
| Extracted (key : string) (shp : list nat)
| ErrorExtracting (e : exn)
| Written (weight_name : string) (shp : list nat) (offset : nat)
| CreatedBinary (bin_path : string)
| TotalSize (offset : nat)
| Converting (model_name : string)
| WarningNotFound (h5_path : string)
| FailedToExtract (h5_path : string)
| SuccessfullyConverted (model_name : string)
| WeightsSavedTo (output_path : string).

(** ** Paths *)

Definition is_sep (c : ascii) : bool := bool_decide (c = "/"%char).

Definition startswith_sep (s : string) : bool :=
  match s with
  | String c _ => is_sep c
  | EmptyString => false
  end.

Fixpoint endswith_sep (s : string) : bool :=
  match s with
  | EmptyString => false
  | String c EmptyString => is_sep c
  | String _ s' => endswith_sep s'
  end.

(** [os.path.join(a, b)] of posixpath, for two arguments. *)
Definition os_path_join (a b : string) : string :=
  if startswith_sep b then b
  else if bool_decide (a = "") || endswith_sep a then a +:+ b
  else a +:+ "/" +:+ b.

(** How the operating system walks a path: the names between the slashes,
    empty names dropped.  [cur] is the name being read.  The names [.] and
    [..], symbolic links and the working directory are not modelled; the
    paths compiled into [main] are absolute and use none of them. *)
Definition flush_component (cur : string) : list string :=
  if bool_decide (cur = "") then [] else [cur].

Fixpoint components_from (cur : string) (s : string) : list string :=
  match s with
  | EmptyString => flush_component cur
  | String c s' =>
      if is_sep c then flush_component cur ++ components_from "" s'
      else components_from (cur +:+ String c "") s'
  end.

Definition components (path : string) : list string := components_from "" path.

(** ** HDF5 containers, the file system, the world *)

Section Model.

Context {scalar : Type}.

(** A node of a container: a group with its members in the order h5py
    iterates them, or a dataset with its shape and what [dataset[:]]
    evaluates to: the array, or the exception h5py raises (a scalar
    dataspace, an unreadable chunk). *)
#[warnings="-register-all"]
Inductive h5obj : Type :=
| H5Group (members : list (string * h5obj))
| H5Dataset (ds_shape : list nat) (ds_read : result (ndarray scalar)).

Fixpoint lookup_member (name : string) (members : list (string * h5obj)) : option h5obj :=
  match members with
  | [] => None
  | (n, child) :: rest =>
      if bool_decide (n = name) then Some child else lookup_member name rest
  end.

(** [name in dataset].  h5py's [Dataset] has no [__contains__], so Python
    iterates the dataset over its first axis and compares each row with the
    name.  A scalar dataset cannot be iterated ([TypeError]); with no row the
    answer is [False]; reading the rows fails as [dataset[:]] does; the
    elements are numbers, so a row that is one number, or an array of one, is
    not the name, and a row of any other size has no truth value
    ([ValueError], for an empty row as numpy does from 2.2 on).  The answer is
    never [True]. *)
Definition dataset_contains (ds_shape : list nat) (ds_read : result (ndarray scalar))
  : result bool :=
  match ds_shape with
  | [] => Raise TypeError
  | O :: _ => Ok false
  | S _ :: row_shape =>
      match ds_read with
      | Raise e => Raise e
      | Ok _ =>
          if decide (size_of_shape row_shape = 1%nat) then Ok false
          else Raise ValueError
      end
  end.

(** [name in obj].  A group answers by its members, a dataset as above. *)
Definition h5_contains (obj : h5obj) (name : string) : result bool :=
  match obj with
  | H5Group members =>
      Ok (match lookup_member name members with Some _ => true | None => false end)
  | H5Dataset ds_shape ds_read => dataset_contains ds_shape ds_read
  end.

(** [obj[name]] for a string [name]: the member of a group, [KeyError] when
    it has none of that name; a dataset has no members. *)
Definition h5_getitem (obj : h5obj) (name : string) : result h5obj :=
  match obj with
  | H5Group members =>
      match lookup_member name members with
      | Some child => Ok child
      | None => Raise KeyError
      end
  | H5Dataset _ _ => Raise ValueError
  end.

(** [obj[:]]: reads a whole dataset; a group cannot be sliced. *)
Definition h5_slice_all (obj : h5obj) : result (ndarray scalar) :=
  match obj with
  | H5Group _ => Raise TypeError
  | H5Dataset _ r => r
  end.

(** What a path leads to.  A regular file either holds a container that
    h5py can open, or plain bytes, which h5py refuses. *)
Inductive fsentry : Type :=
| Directory
| RegularFile (content : list Z)
| ContainerFile (root : h5obj).

Record world : Type := mk_world {
  fs : gmap (list string) fsentry;
  console : list diag
}.

(** The root directory always exists. *)
Definition fs_stat (files : gmap (list string) fsentry) (cs : list string)
  : option fsentry :=
  match cs with
  | [] => Some Directory
  | _ => files !! cs
  end.

(** The empty path names nothing. *)
Definition stat_path (files : gmap (list string) fsentry) (path : string)
  : option fsentry :=
  if bool_decide (path = "") then None else fs_stat files (components path).

Definition print (d : diag) : M world unit :=
  fun w => (Ok tt, mk_world (fs w) (console w ++ [d])).

(** [os.path.exists(path)] *)
Definition os_path_exists (path : string) : M world bool :=
  fun w => (Ok (match stat_path (fs w) path with Some _ => true | None => false end), w).


(** [os.makedirs(path, exist_ok=True)]: walks down from the root, creating
    each missing directory; an existing directory is accepted, a regular file
    in the way is an error. *)
Fixpoint makedirs_from (walked todo : list string)
    (files : gmap (list string) fsentry)
  : result unit * gmap (list string) fsentry :=
  match todo with
  | [] => (Ok tt, files)
  | c :: todo' =>
      let here := walked ++ [c] in
      match files !! here with
      | Some Directory => makedirs_from here todo' files
      | Some _ =>
          (Raise (match todo' with [] => FileExistsError | _ => NotADirectoryError end),
           files)
      | None => makedirs_from here todo' (<[here := Directory]> files)
      end
  end.

Definition os_makedirs (path : string) : M world unit :=
  fun w =>
    if bool_decide (path = "") then (Raise FileNotFoundError, w)
    else
      let '(r, files) := makedirs_from [] (components path) (fs w) in
      (r, mk_world files (console w)).

(** [open(path, 'wb')]: needs the parent directory; creates the file or
    truncates the one that is there.  The handle is the resolved path. *)
Definition open_wb (path : string) : M world (list string) :=
  fun w =>
    let cs := components path in
    if bool_decide (path = "") then (Raise FileNotFoundError, w)
    else
      match fs_stat (fs w) cs with
      | Some Directory => (Raise IsADirectoryError, w)
      | _ =>
          match fs_stat (fs w) (removelast cs) with
          | Some Directory =>
              (Ok cs, mk_world (<[cs := RegularFile []]> (fs w)) (console w))
          | Some _ => (Raise NotADirectoryError, w)
          | None => (Raise FileNotFoundError, w)
          end
      end.

(** [f.write(bytes)] on a handle from [open_wb]: appends. *)
Definition file_write (f : list string) (bytes : list Z) : M world unit :=
  fun w =>
    let append e :=
      match e with
      | RegularFile content => RegularFile (content ++ bytes)
      | other => other
      end in
    (Ok tt, mk_world (alter append f (fs w)) (console w)).

(** [h5py.File(path, 'r')] *)
Definition h5py_File (path : string) : M world h5obj :=
  fun w =>
    match stat_path (fs w) path with
    | Some (ContainerFile root) => (Ok root, w)
    | Some (RegularFile _) => (Raise OSError, w)
    | Some Directory => (Raise IsADirectoryError, w)
    | None => (Raise FileNotFoundError, w)
    end.

(** [f.visititems(print_structure)]: every node below the root, parents
    before children, named by its path from the root; [print_structure]
    prints the shape of a dataset and the word group for a group. *)
Definition node_shape (obj : h5obj) : option (list nat) :=
  match obj with
  | H5Group _ => None
  | H5Dataset sh _ => Some sh
  end.

Definition child_name (prefix name : string) : string :=
  if bool_decide (prefix = "") then name else prefix +:+ "/" +:+ name.

Fixpoint structure_lines (prefix : string) (obj : h5obj) : list diag :=
  match obj with
  | H5Dataset _ _ => []
  | H5Group members =>
      (fix each (ms : list (string * h5obj)) : list diag :=
         match ms with
         | [] => []
         | (n, child) :: rest =>
             StructureLine (child_name prefix n) (node_shape child)
               :: structure_lines (child_name prefix n) child ++ each rest
         end) members
  end.

Definition visititems (f : h5obj) : M world unit :=
  fun w => (Ok tt, mk_world (fs w) (console w ++ structure_lines "" f)).

(** ** The Extractor: [extract_h5_weights] *)

(** The [try] block runs on the local dictionary [weights] and the world;
    when it raises, the dictionary built so far is part of the state that
    the handler receives. *)
Definition lift {S A : Type} (r : result A) : M S A := fun s => (r, s).

Definition store (key : string) (arr : ndarray scalar)
  : M (gmap string (ndarray scalar) * world) unit :=
  fun '(weights, w) => (Ok tt, (<[key := arr]> weights, w)).

Definition print_in_try (d : diag) : M (gmap string (ndarray scalar) * world) unit :=
  fun '(weights, w) => (Ok tt, (weights, mk_world (fs w) (console w ++ [d]))).

(** The body of [for layer_name in layer_names]. *)
Definition extract_layer (layers_root : h5obj) (layer_name : string)
  : M (gmap string (ndarray scalar) * world) unit :=
  in_layers <- lift (h5_contains layers_root layer_name) ;;
  if in_layers : bool then
    layer_group <- lift (h5_getitem layers_root layer_name) ;;
    has_vars <- lift (h5_contains layer_group "vars") ;;
    if has_vars : bool then
      vars_group <- lift (h5_getitem layer_group "vars") ;;
      (has_0 <- lift (h5_contains vars_group "0") ;;
       if has_0 : bool then
         node <- lift (h5_getitem vars_group "0") ;;
         kernel <- lift (h5_slice_all node) ;;
         store (layer_name +:+ "/kernel") kernel ;;;
         print_in_try (Extracted (layer_name +:+ "/kernel") (shape kernel))
       else ret tt) ;;;
      (has_1 <- lift (h5_contains vars_group "1") ;;
       if has_1 : bool then
         node <- lift (h5_getitem vars_group "1") ;;
         bias <- lift (h5_slice_all node) ;;
         store (layer_name +:+ "/bias") bias ;;;
         print_in_try (Extracted (layer_name +:+ "/bias") (shape bias))
       else ret tt)
    else ret tt
  else ret tt.

Fixpoint extract_layers (layers_root : h5obj) (names : list string)
  : M (gmap string (ndarray scalar) * world) unit :=
  match names with
  | [] => ret tt
  | layer_name :: rest =>
      extract_layer layers_root layer_name ;;; extract_layers layers_root rest
  end.

Definition layer_names : list string := ["dense"; "dense_1"; "dense_2"; "dense_3"].

Definition try_block (f : h5obj) : M (gmap string (ndarray scalar) * world) unit :=
  layers_root <- lift (h5_getitem f "layers") ;;
  extract_layers layers_root layer_names.

(** The file is opened and its structure printed outside the [try]; the
    handler prints the error and returns [None], dropping [weights]. *)
Definition extract_h5_weights (h5_file_path : string)
  : M world (option (gmap string (ndarray scalar))) :=
  f <- h5py_File h5_file_path ;;
  print (StructureHeader h5_file_path) ;;;
  visititems f ;;;
  fun w =>
    match try_block f (∅, w) with
    | (Ok _, (weights, w')) => (Ok (Some weights), w')
    | (Raise e, (_, w')) => (print (ErrorExtracting e) ;;; ret None) w'
    end.

(** ** The Packer: [create_tfjs_weights] *)

Variable float32_bits : scalar -> Z.

(** [arr.astype(np.float32)]: same shape, every element converted;
    [float32_bits x] is the bit pattern of [np.float32(x)].  The elements of
    a WeightTensor are numbers, which numpy always converts; an array of
    strings or objects, on which [astype] can raise, is not a value of
    [ndarray scalar]. *)
Definition astype_float32 (arr : ndarray scalar) : ndarray Z :=
  mk_ndarray (shape arr) (map float32_bits (data arr)).

Record weight_spec : Type := mk_weight_spec {
  name : string;
  spec_shape : list nat;
  dtype : string
}.

Definition weight_order : list string :=
  [ "dense/kernel"; "dense/bias";
    "dense_1/kernel"; "dense_1/bias";
    "dense_2/kernel"; "dense_2/bias";
    "dense_3/kernel"; "dense_3/bias" ].

(** The loop [for weight_name in weight_order], with its two accumulators
    [weight_specs] and [offset]. *)
Fixpoint write_weights (weights : gmap string (ndarray scalar)) (f : list string)
    (order : list string) (weight_specs : list weight_spec) (offset : nat)
  : M world (list weight_spec * nat) :=
  match order with
  | [] => ret (weight_specs, offset)
  | weight_name :: rest =>
      match weights !! weight_name with
      | Some arr =>
          let weight_data := astype_float32 arr in
          file_write f (tobytes weight_data) ;;;
          print (Written weight_name (shape weight_data) offset) ;;;
          write_weights weights f rest
            (weight_specs ++ [mk_weight_spec weight_name (shape weight_data) "float32"])
            (offset + nbytes weight_data)%nat
      | None => write_weights weights f rest weight_specs offset
      end
  end.

Definition create_tfjs_weights (weights : gmap string (ndarray scalar))
    (output_path : string) : M world (list weight_spec) :=
  let bin_path := os_path_join output_path "group1-shard1of1.bin" in
  f <- open_wb bin_path ;;
  written <- write_weights weights f weight_order [] 0%nat ;;
  let '(weight_specs, offset) := written in
  print (CreatedBinary bin_path) ;;;
  print (TotalSize offset) ;;;
  ret weight_specs.

(** ** The driver: [main] *)

(** The body of [for model_name, h5_path in models]; [continue] ends it. *)
Definition convert_model (base_path : string) (job : string * string) : M world unit :=
  let '(model_name, h5_path) := job in
  print (Converting model_name) ;;;
  found <- os_path_exists h5_path ;;
  if negb found then print (WarningNotFound h5_path)
  else
    weights <- extract_h5_weights h5_path ;;
    match weights with
    | None => print (FailedToExtract h5_path)
    | Some weights =>
        let output_path := os_path_join base_path model_name in
        os_makedirs output_path ;;;
        weight_specs <- create_tfjs_weights weights output_path ;;
        print (SuccessfullyConverted model_name) ;;;
        print (WeightsSavedTo output_path)
    end.

Fixpoint convert_models (base_path : string) (models : list (string * string))
  : M world unit :=
  match models with
  | [] => ret tt
  | job :: rest => convert_model base_path job ;;; convert_models base_path rest
  end.

Definition models : list (string * string) :=
  [ ("ddpg", "/Users/badrbouchabchoub/Downloads/Negotiator/RL/batna_RL_badr 2/best_actor_ddpg.weights.h5");
    ("td3", "/Users/badrbouchabchoub/Downloads/Negotiator/RL/batna_RL_badr 2/best_actor.weights.h5");
    ("sac", "/Users/badrbouchabchoub/Downloads/Negotiator/RL/batna_RL_badr 2/best_actor_sac.weights.h5") ].

Definition base_path : string :=
  "/Users/badrbouchabchoub/Downloads/Negotiator/Negotiatior/public/models".

Definition main : M world unit := convert_models base_path models.

End Model.

Arguments h5obj : clear implicits.
Arguments fsentry : clear implicits.
Arguments world : clear implicits.

(** ** Vocabulary of the properties *)

Section Vocabulary.

Context {scalar : Type}.
Variable float32_bits : scalar -> Z.

(** The node at a path of member names below [obj], if there is one. *)
Fixpoint h5_node (obj : h5obj scalar) (path : list string) : option (h5obj scalar) :=
  match path with
  | [] => Some obj
  | n :: rest =>
      match obj with
      | H5Group members =>
          match lookup_member n members with
          | Some child => h5_node child rest
          | None => None
          end
      | H5Dataset _ _ => None
      end
  end.

(** A present node of the kind the Extractor expects at its place. *)
Definition group_if_present (o : option (h5obj scalar)) : Prop :=
  match o with
  | Some (H5Dataset _ _) => False
  | _ => True
  end.

Definition readable_if_present (o : option (h5obj scalar)) : Prop :=
  match o with
  | Some (H5Group _) | Some (H5Dataset _ (Raise _)) => False
  | _ => True
  end.

Definition layer_well_kinded (root : h5obj scalar) (layer_name : string) : Prop :=
  group_if_present (h5_node root ["layers"; layer_name])
  /\ group_if_present (h5_node root ["layers"; layer_name; "vars"])
  /\ readable_if_present (h5_node root ["layers"; layer_name; "vars"; "0"])
  /\ readable_if_present (h5_node root ["layers"; layer_name; "vars"; "1"]).

(** The array behind a node, when the node is a dataset that reads. *)
Definition dataset_array (o : option (h5obj scalar)) : option (ndarray scalar) :=
  match o with
  | Some (H5Dataset _ (Ok arr)) => Some arr
  | _ => None
  end.

Definition insert_if_some (key : string) (o : option (ndarray scalar))
    (weights : gmap string (ndarray scalar)) : gmap string (ndarray scalar) :=
  match o with
  | Some arr => <[key := arr]> weights
  | None => weights
  end.

(** What one layer adds to the dictionary: its kernel from [vars/0], then its
    bias from [vars/1]. *)
Definition layer_slots (layers_root : h5obj scalar)
    (weights : gmap string (ndarray scalar)) (layer_name : string)
  : gmap string (ndarray scalar) :=
  insert_if_some (layer_name +:+ "/bias")
    (dataset_array (h5_node layers_root [layer_name; "vars"; "1"]))
    (insert_if_some (layer_name +:+ "/kernel")
       (dataset_array (h5_node layers_root [layer_name; "vars"; "0"]))
       weights).

(** The WeightSet of a whole container: every layer of [layer_names] in turn. *)
Definition complete_weights (root : h5obj scalar) : gmap string (ndarray scalar) :=
  match h5_node root ["layers"] with
  | Some layers_root => fold_left (layer_slots layers_root) layer_names ∅
  | None => ∅
  end.

(** Two states of the [try] block that differ in the console only, and a
    computation that cannot tell them apart, leaves the files alone and only
    adds to the console. *)
Definition same_files (s1 s2 : gmap string (ndarray scalar) * world scalar) : Prop :=
  fst s1 = fst s2 /\ fs (snd s1) = fs (snd s2).

Definition oblivious {A : Type}
    (c : M (gmap string (ndarray scalar) * world scalar) A) : Prop :=
  forall s1 s2, same_files s1 s2 ->
    fst (c s1) = fst (c s2)
    /\ same_files (snd (c s1)) (snd (c s2))
    /\ fs (snd (snd (c s1))) = fs (snd s1)
    /\ exists log, console (snd (snd (c s1))) = console (snd s1) ++ log.

(** The world in which the [try] block of [extract_h5_weights] starts: the
    header and the structure lines are on the console. *)
Definition after_dump (h5_file_path : string) (f : h5obj scalar) (w : world scalar)
  : world scalar :=
  mk_world (fs w) (console w ++ [StructureHeader h5_file_path] ++ structure_lines "" f).

(** What the Extractor returns on a file system, whatever the console holds. *)
Definition extraction_outcome (files : gmap (list string) (fsentry scalar))
    (h5_path : string) : result (option (gmap string (ndarray scalar))) :=
  fst (extract_h5_weights h5_path (mk_world files [])).

(** The file the Packer writes, as the operating system resolves it. *)
Definition bin_file (output_path : string) : list string :=
  components (os_path_join output_path "group1-shard1of1.bin").

(** The slots of [order] that a WeightSet holds, in that order; over
    [weight_order], the tensors actually written. *)
Definition held_slots (weights : gmap string (ndarray scalar)) (order : list string)
  : list string :=
  filter (fun slot => is_Some (weights !! slot)) order.

Definition written_slots (weights : gmap string (ndarray scalar)) : list string :=
  held_slots weights weight_order.

(** The bytes of one slot: the tensor cast and serialized, nothing when the
    slot is absent. *)
Definition slot_bytes (weights : gmap string (ndarray scalar)) (slot : string) : list Z :=
  match weights !! slot with
  | Some arr => tobytes (astype_float32 float32_bits arr)
  | None => []
  end.

Definition slot_shape (weights : gmap string (ndarray scalar)) (slot : string) : list nat :=
  match weights !! slot with
  | Some arr => shape arr
  | None => []
  end.

Definition slot_spec (weights : gmap string (ndarray scalar)) (slot : string) : weight_spec :=
  mk_weight_spec slot (slot_shape weights slot) "float32".

(** Four bytes for each element of the slot's shape. *)
Definition slot_nbytes (weights : gmap string (ndarray scalar)) (slot : string) : nat :=
  (4 * size_of_shape (slot_shape weights slot))%nat.

(** A consumer of the binary file: walks the WeightSpec with a running
    offset, takes [4 * size] bytes there, decodes them as little-endian
    float32 and reshapes. *)
Fixpoint read_back (buf : list Z) (offset : nat) (specs : list weight_spec)
  : list (string * option (ndarray Z)) :=
  match specs with
  | [] => []
  | s :: rest =>
      let n := (4 * size_of_shape (spec_shape s))%nat in
      (name s, reshape (spec_shape s) (frombuffer (take n (drop offset buf))))
        :: read_back buf (offset + n) rest
  end.

(** A job fails softly when its source is missing or its extraction returns
    the absence signal. *)
Definition fails_softly (files : gmap (list string) (fsentry scalar))
    (job : string * string) : Prop :=
  stat_path files (snd job) = None \/ extraction_outcome files (snd job) = Ok None.

End Vocabulary.

(** ** Concrete inputs *)

(** In the examples the containers already store float32 values: a scalar is
    a bit pattern, and the cast keeps its low 32 bits. *)
Definition keep_bits (x : Z) : Z := Z.land x (Z.ones 32).

(** A 4 x 3 kernel and a bias of 3, as bit patterns (1.0 is 1065353216). *)
Definition kernel_4x3 : ndarray Z :=
  mk_ndarray [4; 3]%nat
    [ 1065353216; 0; 0;  0; 1065353216; 0;  0; 0; 1065353216;  1073741824; 3212836864; 1056964608 ].

Definition bias_3 : ndarray Z :=
  mk_ndarray [3]%nat [ 1036831949; 3184315597; 2139095040 ].

Definition layer_with_both : h5obj Z :=
  H5Group [ ("vars", H5Group [ ("0", H5Dataset [4; 3]%nat (Ok kernel_4x3));
                               ("1", H5Dataset [3]%nat (Ok bias_3)) ]) ].

(** Only [dense], with kernel and bias. *)
Definition container_one_layer : h5obj Z :=
  H5Group [ ("layers", H5Group [ ("dense", layer_with_both) ]);
            ("optimizer", H5Group []) ].

(** A [layers] group that holds none of the four fixed layers. *)
Definition container_no_match : h5obj Z :=
  H5Group [ ("layers", H5Group [ ("conv2d", layer_with_both) ]) ].

(** [dense] is fine, but [dense_1/vars/0] is a group, which [[:]] rejects. *)
Definition container_broken : h5obj Z :=
  H5Group [ ("layers",
             H5Group [ ("dense", layer_with_both);
                       ("dense_1", H5Group [ ("vars", H5Group [ ("0", H5Group []) ]) ]) ]) ].

Definition disk : gmap (list string) (fsentry Z) :=
  <[ ["in"] := Directory ]>
  (<[ ["in"; "one.h5"] := ContainerFile container_one_layer ]>
  (<[ ["in"; "none.h5"] := ContainerFile container_no_match ]>
  (<[ ["in"; "broken.h5"] := ContainerFile container_broken ]>
  (<[ ["in"; "notes.txt"] := RegularFile [104; 105] ]>
  (<[ ["out"] := Directory ]>
  (<[ ["out"; "group1-shard1of1.bin"] := RegularFile [1; 2; 3; 4; 5] ]>
  (<[ ["out"; "taken"] := Directory ]>
  (<[ ["out"; "taken"; "group1-shard1of1.bin"] := Directory ]> ∅)))))))).

Definition boot : world Z := mk_world disk [].

Definition two_slots : gmap string (ndarray Z) :=
  <[ "dense/kernel" := kernel_4x3 ]> (<[ "dense/bias" := bias_3 ]> ∅).

Definition six_slots : gmap string (ndarray Z) :=
  <[ "dense/kernel" := kernel_4x3 ]> (<[ "dense/bias" := bias_3 ]>
  (<[ "dense_1/kernel" := kernel_4x3 ]> (<[ "dense_1/bias" := bias_3 ]>
  (<[ "dense_3/kernel" := kernel_4x3 ]> (<[ "dense_3/bias" := bias_3 ]> ∅))))).

(** ** Vocabulary of the further properties *)

Section FurtherVocabulary.

Context {scalar : Type}.
Variable float32_bits : scalar -> Z.

(** The lines the Packer prints for the tensors it writes, from a running
    offset: name, shape, and the offset before the tensor. *)
Fixpoint written_lines (weights : gmap string (ndarray scalar)) (slots : list string)
    (offset : nat) : list diag :=
  match slots with
  | [] => []
  | slot :: rest =>
      Written slot (slot_shape weights slot) offset
        :: written_lines weights rest (offset + slot_nbytes weights slot)
  end.

(** The bytes a node of the container contributes to the binary file: the
    array of [layers/<layer>/vars/<index>] cast and serialized, nothing when
    there is no such dataset. *)
Definition node_bytes (root : h5obj scalar) (layer_name index : string) : list Z :=
  match dataset_array (h5_node root ["layers"; layer_name; "vars"; index]) with
  | Some arr => tobytes (astype_float32 float32_bits arr)
  | None => []
  end.

(** A computation of the [try] block whose result and dictionary depend on
    the dictionary it starts from, and on nothing of the world. *)
Definition world_blind {A : Type}
    (c : M (gmap string (ndarray scalar) * world scalar) A) : Prop :=
  forall s1 s2, fst s1 = fst s2 ->
    fst (c s1) = fst (c s2) /\ fst (snd (c s1)) = fst (snd (c s2)).

(** The binary files of a list of jobs under a base directory. *)
Definition bin_files (base : string) (jobs : list (string * string))
  : list (list string) :=
  map (fun job => bin_file (os_path_join base (fst job))) jobs.

(** Every entry of [files] is still there in [files'], as it was or, when
    its path is one of [bins], as a regular file. *)
Definition kept_outside (bins : list (list string))
    (files files' : gmap (list string) (fsentry scalar)) : Prop :=
  forall p e, files !! p = Some e ->
    files' !! p = Some e
    \/ (p ∈ bins /\ exists content, files' !! p = Some (RegularFile content)).

(** Every directory on the way to [path], [path] included, exists. *)
Definition directories_exist (files : gmap (list string) (fsentry scalar))
    (cs : list string) : Prop :=
  forall pre suf, cs = pre ++ suf -> pre <> [] -> files !! pre = Some Directory.

(** An entry that [files'] has and [files] had not is a directory, or one of
    [bins]. *)
Definition created_outside (bins : list (list string))
    (files files' : gmap (list string) (fsentry scalar)) : Prop :=
  forall p e, files !! p = None -> files' !! p = Some e ->
    e = Directory \/ p ∈ bins.

(** The name [visititems] gives the node at [path] below a node named
    [prefix]: the member names joined by slashes. *)
Definition node_name (prefix : string) (path : list string) : string :=
  fold_left child_name path prefix.

End FurtherVocabulary.

(** Further concrete inputs: a container with no [layers] group on the disk,
    a WeightSet with a tensor outside the eight slots, an empty world. *)
Definition container_without_layers : h5obj Z :=
  H5Group [ ("optimizer", H5Group [ ("vars", H5Group []) ]) ].

Definition disk_with_bare : gmap (list string) (fsentry Z) :=
  <[ ["in"; "bare.h5"] := ContainerFile container_without_layers ]> disk.

Definition two_slots_and_more : gmap string (ndarray Z) :=
  <[ "dense_4/kernel" := kernel_4x3 ]> two_slots.

Definition nothing : world Z := mk_world ∅ [].

(** A dataset where a group is expected: a one-dimensional dataset named
    [dense] in [layers], and one named [vars] in [dense_1] beside a complete
    [dense]; the disk with both. *)
Definition container_flat_layer : h5obj Z :=
  H5Group [ ("layers", H5Group [ ("dense", H5Dataset [3]%nat (Ok bias_3)) ]) ].

Definition container_flat_vars : h5obj Z :=
  H5Group [ ("layers",
             H5Group [ ("dense", layer_with_both);
                       ("dense_1", H5Group [ ("vars", H5Dataset [3]%nat (Ok bias_3)) ]) ]) ].

Definition disk_with_flat : gmap (list string) (fsentry Z) :=
  <[ ["in"; "flat.h5"] := ContainerFile container_flat_layer ]>
  (<[ ["in"; "flat_vars.h5"] := ContainerFile container_flat_vars ]> disk).

(** * Proofs *)

(** ** Bytes of a float32, paths *)

Lemma byte_of_word_testbit w k n :
  0 <= k -> 0 <= n ->
  Z.testbit (Z.land (Z.shiftr w k) 255) n = (Z.testbit w (n + k) && (n <? 8)%Z)%bool.
Proof.
  intros Hk Hn. change 255 with (Z.ones 8).
  rewrite Z.land_spec, Z.shiftr_spec by lia.
  rewrite Z.testbit_ones by lia.
  destruct (Z.leb_spec 0 n); [|lia]. reflexivity.
Qed.

Lemma placed_byte_testbit w k n :
  0 <= k -> 0 <= n ->
  Z.testbit (Z.shiftl (Z.land (Z.shiftr w k) 255) k) n
  = (Z.testbit w n && ((k <=? n)%Z && (n <? k + 8)%Z))%bool.
Proof.
  intros Hk Hn. rewrite Z.shiftl_spec by lia.
  destruct (Z.leb_spec k n) as [Hle|Hlt].
  - rewrite byte_of_word_testbit by lia.
    replace (n - k + k) with n by lia.
    destruct (Z.ltb_spec (n - k) 8), (Z.ltb_spec n (k + 8)); try lia; reflexivity.
  - rewrite Z.testbit_neg_r by lia. now rewrite andb_false_r.
Qed.

Lemma float32_frombytes_tobytes w :
  0 <= w < 2 ^ 32 ->
  match float32_tobytes w with
  | [b0; b1; b2; b3] => float32_frombytes b0 b1 b2 b3 = w
  | _ => False
  end.
Proof.
  intros Hw. unfold float32_tobytes, float32_frombytes.
  apply Z.bits_inj'. intros n Hn.
  rewrite <- (Z.shiftr_0_r w) at 1.
  rewrite <- (Z.shiftl_0_r (Z.land (Z.shiftr w 0) 255)).
  rewrite !Z.lor_spec, !placed_byte_testbit by lia.
  destruct (Z.ltb_spec n 32) as [H32|H32].
  - destruct (Z.testbit w n); [|reflexivity]. cbn [andb].
    destruct (Z.leb_spec 0 n), (Z.ltb_spec n (0 + 8)), (Z.leb_spec 8 n),
      (Z.ltb_spec n (8 + 8)), (Z.leb_spec 16 n), (Z.ltb_spec n (16 + 8)),
      (Z.leb_spec 24 n), (Z.ltb_spec n (24 + 8)); try lia; reflexivity.
  - replace (Z.testbit w n) with false; [reflexivity|]. symmetry.
    destruct (Z.eq_dec w 0) as [->|Hnz]; [apply Z.testbit_0_l|].
    apply Z.bits_above_log2; [lia|].
    assert (Z.log2 w < 32) by (apply Z.log2_lt_pow2; lia). lia.
Qed.

Lemma length_float32_tobytes w : length (float32_tobytes w) = 4%nat.
Proof. reflexivity. Qed.

Lemma length_tobytes (a : ndarray Z) : length (tobytes a) = (4 * length (data a))%nat.
Proof.
  unfold tobytes. induction (data a) as [|x xs IH]; [reflexivity|].
  cbn [map concat]. rewrite length_app, IH, length_float32_tobytes. cbn [length]. lia.
Qed.

Lemma frombuffer_tobytes (xs : list Z) :
  Forall (fun x => 0 <= x < 2 ^ 32) xs ->
  frombuffer (concat (map float32_tobytes xs)) = xs.
Proof.
  induction 1 as [|x xs Hx _ IH]; [reflexivity|].
  cbn [map concat].
  pose proof (float32_frombytes_tobytes x Hx) as Hrt.
  unfold float32_tobytes in *. cbn [app frombuffer].
  rewrite Hrt. f_equal. exact IH.
Qed.
Lemma append_String c (s t : string) : String c s +:+ t = String c (s +:+ t).
Proof. reflexivity. Qed.

Lemma append_empty_l (t : string) : "" +:+ t = t.
Proof. reflexivity. Qed.

Lemma append_assoc (a b c : string) : (a +:+ b) +:+ c = a +:+ (b +:+ c).
Proof.
  induction a as [|x a IH]; [reflexivity|].
  rewrite !append_String. now rewrite IH.
Qed.

Lemma components_from_sep cur a b :
  components_from cur (a +:+ String "/" b)
  = components_from cur a ++ components_from "" b.
Proof.
  revert cur. induction a as [|c a IH]; intros cur.
  - reflexivity.
  - rewrite append_String. cbn [components_from]. destruct (is_sep c).
    + rewrite IH. now rewrite app_assoc.
    + apply IH.
Qed.

Lemma endswith_sep_split a :
  endswith_sep a = true -> exists a', a = a' +:+ "/".
Proof.
  induction a as [|c a IH]; [discriminate|].
  destruct a as [|c' a].
  - cbn. unfold is_sep. intros H. apply bool_decide_eq_true in H. subst c.
    now exists "".
  - intros H. destruct (IH H) as [a' Ha']. exists (String c a').
    rewrite append_String. now rewrite <- Ha'.
Qed.

Lemma components_bin_name :
  components_from "" "group1-shard1of1.bin" = ["group1-shard1of1.bin"].
Proof. vm_compute. reflexivity. Qed.

Lemma components_join_bin output_path :
  components (os_path_join output_path "group1-shard1of1.bin")
  = components output_path ++ ["group1-shard1of1.bin"].
Proof.
  unfold os_path_join, components.
  change (startswith_sep "group1-shard1of1.bin") with false. cbv iota.
  destruct (bool_decide (output_path = "")) eqn:He.
  - apply bool_decide_eq_true in He. subst output_path.
    rewrite append_empty_l. exact components_bin_name.
  - cbn [orb]. destruct (endswith_sep output_path) eqn:Hs.
    + destruct (endswith_sep_split _ Hs) as [a' ->].
      rewrite append_assoc, append_String, append_empty_l.
      rewrite !components_from_sep, components_bin_name.
      change (components_from "" "") with (@nil string). now rewrite app_nil_r.
    + rewrite append_String, append_empty_l.
      now rewrite components_from_sep, components_bin_name.
Qed.

Lemma os_path_join_bin_nonempty output_path :
  os_path_join output_path "group1-shard1of1.bin" <> "".
Proof.
  intros H. pose proof (components_join_bin output_path) as Hc.
  rewrite H in Hc. change (components "") with (@nil string) in Hc.
  now destruct (components output_path).
Qed.

Lemma bin_file_parent output_path :
  removelast (bin_file output_path) = components output_path.
Proof. unfold bin_file. rewrite components_join_bin. apply removelast_last. Qed.

Lemma bin_file_nonempty output_path : bin_file output_path <> [].
Proof.
  unfold bin_file. rewrite components_join_bin.
  now destruct (components output_path).
Qed.

(** ** What a run of the Packer leaves behind *)

Section PackerRuns.

Context {scalar : Type}.
Variable float32_bits : scalar -> Z.

Lemma alter_lookup_insert {V : Type} (g : V -> V) (k : list string) (v : V)
    (m : gmap (list string) V) :
  m !! k = Some v -> alter g k m = <[k := g v]> m.
Proof.
  intros Hk. rewrite <- (insert_id m k v Hk) at 1. apply alter_insert_eq.
Qed.

Lemma write_weights_run (weights : gmap string (ndarray scalar)) f order :
  forall specs off (w : world scalar) content,
  fs w !! f = Some (RegularFile content) ->
  exists log,
    write_weights float32_bits weights f order specs off w
    = (Ok (specs ++ map (slot_spec weights) (held_slots weights order),
           (off + sum_list (map (slot_nbytes weights) (held_slots weights order)))%nat),
       mk_world
         (<[f := RegularFile
                   (content ++ concat (map (slot_bytes float32_bits weights)
                                           (held_slots weights order)))]> (fs w))
         (console w ++ log)).
Proof.
  unfold held_slots.
  induction order as [|slot order IH]; intros specs off w content Hf.
  - exists []. cbn. unfold ret. rewrite !app_nil_r, Nat.add_0_r.
    rewrite insert_id by exact Hf. now destruct w.
  - cbn [write_weights]. destruct (weights !! slot) as [arr|] eqn:Hslot.
    + rewrite filter_cons_True by (rewrite Hslot; eauto).
      unfold bind at 1. unfold file_write.
      unfold bind at 1. unfold print at 1. cbn [fs console].
      rewrite (alter_lookup_insert _ _ _ _ Hf).
      edestruct (IH (specs ++ [mk_weight_spec slot (shape (astype_float32 float32_bits arr)) "float32"])
                   (off + nbytes (astype_float32 float32_bits arr))%nat
                   (mk_world
                      (<[f := RegularFile (content ++ tobytes (astype_float32 float32_bits arr))]> (fs w))
                      (console w ++ [Written slot (shape (astype_float32 float32_bits arr)) off])))
        as [log Hrun].
      { cbn [fs]. apply lookup_insert_eq. }
      rewrite Hrun. eexists. cbn [fs console map concat sum_list].
      rewrite insert_insert_eq.
      unfold slot_spec at 2, slot_bytes at 2, slot_nbytes at 2, slot_shape, nbytes, ndarray_size.
      rewrite Hslot. cbn [shape astype_float32].
      rewrite <- !app_assoc. cbn [app]. rewrite Nat.add_assoc. reflexivity.
    + rewrite filter_cons_False by (rewrite Hslot; intros [? ?]; discriminate).
      apply IH, Hf.
Qed.

Lemma create_tfjs_weights_run (weights : gmap string (ndarray scalar)) output_path
    (w : world scalar) :
  fs_stat (fs w) (components output_path) = Some Directory ->
  fs_stat (fs w) (bin_file output_path) <> Some Directory ->
  exists log,
    create_tfjs_weights float32_bits weights output_path w
    = (Ok (map (slot_spec weights) (written_slots weights)),
       mk_world
         (<[bin_file output_path :=
              RegularFile (concat (map (slot_bytes float32_bits weights)
                                       (written_slots weights)))]> (fs w))
         (console w ++ log)).
Proof.
  intros Hdir Hbin. unfold create_tfjs_weights.
  assert (Hopen : open_wb (os_path_join output_path "group1-shard1of1.bin") w
                  = (Ok (bin_file output_path),
                     mk_world (<[bin_file output_path := RegularFile []]> (fs w)) (console w))).
  { unfold open_wb. fold (bin_file output_path).
    rewrite bool_decide_eq_false_2 by apply os_path_join_bin_nonempty.
    rewrite bin_file_parent, Hdir.
    destruct (fs_stat (fs w) (bin_file output_path)) as [[| |]|]; congruence. }
  unfold bind at 1. rewrite Hopen.
  edestruct (write_weights_run weights (bin_file output_path) weight_order [] 0%nat
               (mk_world (<[bin_file output_path := RegularFile []]> (fs w)) (console w)) [])
    as [log Hrun].
  { cbn [fs]. apply lookup_insert_eq. }
  unfold bind at 1. rewrite Hrun. cbn [fs console app].
  rewrite insert_insert_eq.
  eexists. unfold bind, print, ret. cbn [fs console].
  rewrite <- !app_assoc. reflexivity.
Qed.

Lemma create_tfjs_weights_needs_directory (weights : gmap string (ndarray scalar))
    output_path (w : world scalar) :
  fs_stat (fs w) (components output_path) = None ->
  exists e, create_tfjs_weights float32_bits weights output_path w = (Raise e, w).
Proof.
  intros Hdir. unfold create_tfjs_weights, bind, open_wb.
  fold (bin_file output_path).
  rewrite bool_decide_eq_false_2 by apply os_path_join_bin_nonempty.
  rewrite bin_file_parent, Hdir.
  destruct (fs_stat (fs w) (bin_file output_path)) as [[| |]|]; eauto.
Qed.

End PackerRuns.

(** ** The guarded block never looks at the console *)

Section Obliviousness.
Context {scalar : Type}.

Lemma oblivious_ret {A} (a : A) : oblivious (ret a : M (gmap string (ndarray scalar) * world scalar) A).
Proof. intros s1 s2 H. cbn. repeat split; try apply H. exists []. now rewrite app_nil_r. Qed.

Lemma oblivious_lift {A} (r : result A) : oblivious (lift r : M (gmap string (ndarray scalar) * world scalar) A).
Proof. intros s1 s2 H. cbn. repeat split; try apply H. exists []. now rewrite app_nil_r. Qed.

Lemma oblivious_store key arr : oblivious (scalar := scalar) (store key arr).
Proof.
  intros [ws1 w1] [ws2 w2] [Hws Hfs]. cbn in *. subst. unfold same_files. cbn.
  repeat split; auto. exists []. now rewrite app_nil_r.
Qed.

Lemma oblivious_print d : oblivious (scalar := scalar) (print_in_try d).
Proof.
  intros [ws1 w1] [ws2 w2] [Hws Hfs]. cbn in *. subst. unfold same_files. cbn.
  repeat split; auto. now exists [d].
Qed.

Lemma oblivious_bind {A B}
    (c : M (gmap string (ndarray scalar) * world scalar) A)
    (k : A -> M (gmap string (ndarray scalar) * world scalar) B) :
  oblivious c -> (forall a, oblivious (k a)) -> oblivious (bind c k).
Proof.
  intros Hc Hk s1 s2 Hs. unfold bind.
  destruct (Hc s1 s2 Hs) as (Hr & Hs' & Hfs & log & Hlog).
  destruct (c s1) as [[a1|e1] s1'], (c s2) as [[a2|e2] s2']; cbn [fst snd] in *;
    try discriminate.
  - injection Hr as ->.
    destruct (Hk a2 s1' s2' Hs') as (Hr2 & Hs2 & Hfs2 & log' & Hlog').
    split; [exact Hr2|]. split; [exact Hs2|]. split; [now rewrite Hfs2|].
    exists (log ++ log'). now rewrite Hlog', Hlog, app_assoc.
  - split; [congruence|]. split; [exact Hs'|]. split; [exact Hfs|]. eauto.
Qed.

Lemma oblivious_if {A} (b : bool) (c1 c2 : M (gmap string (ndarray scalar) * world scalar) A) :
  oblivious c1 -> oblivious c2 -> oblivious (if b then c1 else c2).
Proof. now destruct b. Qed.

Ltac oblivious_step :=
  first [ apply oblivious_ret | apply oblivious_lift | apply oblivious_store
        | apply oblivious_print
        | apply oblivious_bind; [|intros ?]
        | apply oblivious_if ].

Lemma oblivious_extract_layer (layers_root : h5obj scalar) layer_name :
  oblivious (extract_layer layers_root layer_name).
Proof. unfold extract_layer. repeat oblivious_step. Qed.

Lemma oblivious_extract_layers (layers_root : h5obj scalar) names :
  oblivious (extract_layers layers_root names).
Proof.
  induction names as [|l names IH]; cbn [extract_layers].
  - apply oblivious_ret.
  - apply oblivious_bind; [apply oblivious_extract_layer | intros _; exact IH].
Qed.

Lemma oblivious_try_block (f : h5obj scalar) : oblivious (try_block f).
Proof.
  unfold try_block. apply oblivious_bind; [apply oblivious_lift|].
  intros ?. apply oblivious_extract_layers.
Qed.

End Obliviousness.

(** ** What a run of the guarded block leaves in the dictionary *)

Section ExtractorRuns.
Context {scalar : Type}.

Lemma dataset_contains_false sh (r : result (ndarray scalar)) b :
  dataset_contains sh r = Ok b -> b = false.
Proof.
  unfold dataset_contains. destruct sh as [|[|n] row_shape]; [discriminate|congruence|].
  destruct r; [|discriminate]. case_decide; [congruence|discriminate].
Qed.

Ltac case_member :=
  match goal with
  | |- context [lookup_member ?n ?ms] =>
      destruct (lookup_member n ms) as [[?|? [?|?]]|] eqn:?
  end.

(** A membership test on a dataset: it fails or answers [False]. *)
Ltac case_dataset :=
  match goal with
  | |- context [dataset_contains ?sh ?r] =>
      let H := fresh "Hin" in
      destruct (dataset_contains sh r) as [[|]|?] eqn:H;
      [apply dataset_contains_false in H; discriminate H| |]
  end.

Lemma extract_layer_ok (layers_root : h5obj scalar) layer_name ws w ws' w' :
  extract_layer layers_root layer_name (ws, w) = (Ok tt, (ws', w')) ->
  ws' = layer_slots layers_root ws layer_name
  /\ readable_if_present (h5_node layers_root [layer_name; "vars"; "0"])
  /\ readable_if_present (h5_node layers_root [layer_name; "vars"; "1"]).
Proof.
  unfold extract_layer, layer_slots, bind, lift, ret, store, print_in_try,
    h5_contains, h5_getitem, h5_slice_all.
  destruct layers_root as [ms|sh r]; cbn [h5_node].
  2: { case_dataset; cbn [dataset_array insert_if_some readable_if_present];
         intros [= <- <-] || (intros ?; discriminate); auto. }
  repeat (first [case_member | case_dataset];
          cbn [h5_node dataset_array insert_if_some readable_if_present]);
    intros [= <- <-] || (intros ?; discriminate); auto.
Qed.

Lemma extract_layer_succeeds (layers_root : h5obj scalar) layer_name ws w :
  group_if_present (h5_node layers_root [layer_name]) ->
  group_if_present (h5_node layers_root [layer_name; "vars"]) ->
  readable_if_present (h5_node layers_root [layer_name; "vars"; "0"]) ->
  readable_if_present (h5_node layers_root [layer_name; "vars"; "1"]) ->
  (exists ms, layers_root = H5Group ms) ->
  exists s', extract_layer layers_root layer_name (ws, w) = (Ok tt, s').
Proof.
  intros Hl Hv H0 H1 [ms ->]. revert Hl Hv H0 H1.
  unfold extract_layer, bind, lift, ret, store, print_in_try,
    h5_contains, h5_getitem, h5_slice_all.
  cbn [h5_node].
  repeat (case_member; cbn [h5_node group_if_present readable_if_present]);
    intros; try contradiction; eauto.
Qed.

Lemma extract_layers_ok (layers_root : h5obj scalar) names :
  forall ws w ws' w',
  extract_layers layers_root names (ws, w) = (Ok tt, (ws', w')) ->
  ws' = fold_left (layer_slots layers_root) names ws
  /\ Forall (fun l => readable_if_present (h5_node layers_root [l; "vars"; "0"])
                      /\ readable_if_present (h5_node layers_root [l; "vars"; "1"]))
            names.
Proof.
  induction names as [|l names IH]; intros ws w ws' w'; cbn [extract_layers fold_left].
  - intros [= <- <-]. auto.
  - unfold bind at 1.
    destruct (extract_layer layers_root l (ws, w)) as [[[]|e] [ws1 w1]] eqn:Hl;
      [|discriminate].
    intros Hrest. apply extract_layer_ok in Hl as (-> & H0 & H1).
    apply IH in Hrest as (-> & Hall). auto.
Qed.

Lemma extract_layers_succeeds (layers_root : h5obj scalar) names :
  (exists ms, layers_root = H5Group ms) ->
  Forall (fun l =>
            group_if_present (h5_node layers_root [l])
            /\ group_if_present (h5_node layers_root [l; "vars"])
            /\ readable_if_present (h5_node layers_root [l; "vars"; "0"])
            /\ readable_if_present (h5_node layers_root [l; "vars"; "1"])) names ->
  forall s, exists s', extract_layers layers_root names s = (Ok tt, s').
Proof.
  intros Hroot. induction 1 as [|l names (Hl & Hv & H0 & H1) _ IH];
    intros [ws w]; cbn [extract_layers].
  - eexists. reflexivity.
  - destruct (extract_layer_succeeds layers_root l ws w Hl Hv H0 H1 Hroot) as [s1 Hs1].
    unfold bind at 1. rewrite Hs1. apply IH.
Qed.

End ExtractorRuns.

(** ** The Extractor and the driver, case by case *)

Section DriverRuns.
Context {scalar : Type}.
Variable float32_bits : scalar -> Z.

Lemma extract_h5_weights_opened h5_file_path (w : world scalar) f :
  stat_path (fs w) h5_file_path = Some (ContainerFile f) ->
  extract_h5_weights h5_file_path w
  = match try_block f (∅, after_dump h5_file_path f w) with
    | (Ok _, (weights, w')) => (Ok (Some weights), w')
    | (Raise e, (_, w')) =>
        (Ok None, mk_world (fs w') (console w' ++ [ErrorExtracting e]))
    end.
Proof.
  intros Hstat. unfold extract_h5_weights, bind, h5py_File, print, visititems.
  rewrite Hstat. cbn [fs console]. unfold after_dump.
  rewrite <- app_assoc.
  destruct (try_block f _) as [[[]|e] [ws w']]; reflexivity.
Qed.

Lemma extract_h5_weights_not_opened h5_file_path (w : world scalar) :
  (forall f, stat_path (fs w) h5_file_path <> Some (ContainerFile f)) ->
  exists e, extract_h5_weights h5_file_path w = (Raise e, w).
Proof.
  intros Hstat. unfold extract_h5_weights, bind, h5py_File.
  destruct (stat_path (fs w) h5_file_path) as [[| |f]|]; eauto.
  now destruct (Hstat f).
Qed.

Lemma extract_h5_weights_outcome h5_file_path (w : world scalar) :
  fst (extract_h5_weights h5_file_path w) = extraction_outcome (fs w) h5_file_path
  /\ fs (snd (extract_h5_weights h5_file_path w)) = fs w
  /\ exists log, console (snd (extract_h5_weights h5_file_path w)) = console w ++ log.
Proof.
  unfold extraction_outcome.
  destruct (stat_path (fs w) h5_file_path) as [[| |f]|] eqn:Hstat.
  1, 2, 4: unfold extract_h5_weights, bind, h5py_File; cbn [fs]; rewrite Hstat;
    cbn; repeat split; exists []; now rewrite app_nil_r.
  rewrite !(extract_h5_weights_opened _ _ f) by exact Hstat.
  destruct (oblivious_try_block f
              (∅, after_dump h5_file_path f w)
              (∅, after_dump h5_file_path f (mk_world (fs w) [])))
    as (Hr & [Hws Hfs] & Hkeep & log & Hlog).
  { split; reflexivity. }
  destruct (try_block f (∅, after_dump h5_file_path f w)) as [[[]|e] [ws1 w1]],
    (try_block f (∅, after_dump h5_file_path f (mk_world (fs w) [])))
      as [[[]|e'] [ws2 w2]];
    cbn in *; try discriminate; subst; repeat split; auto;
    rewrite Hlog, <- !app_assoc; eauto.
Qed.

Lemma makedirs_from_ok todo :
  forall walked (files files' : gmap (list string) (fsentry scalar)),
  makedirs_from walked todo files = (Ok tt, files') ->
  todo <> [] -> files' !! (walked ++ todo) = Some Directory.
Proof.
  induction todo as [|c todo IH]; intros walked files files' Hrun Hne;
    [congruence|].
  cbn [makedirs_from] in Hrun.
  assert (Hkeep : forall files0,
             files0 !! (walked ++ [c]) = Some Directory ->
             makedirs_from (walked ++ [c]) todo files0 = (Ok tt, files') ->
             files' !! (walked ++ c :: todo) = Some Directory).
  { intros files0 Hhere Hrest. destruct todo as [|c' todo].
    - cbn in Hrest. injection Hrest as <-. exact Hhere.
    - replace (walked ++ c :: c' :: todo) with ((walked ++ [c]) ++ c' :: todo)
        by now rewrite <- app_assoc.
      eapply IH; [exact Hrest|discriminate]. }
  destruct (files !! (walked ++ [c])) as [[| |]|] eqn:Hhere; try discriminate.
  - eapply Hkeep; eauto.
  - eapply Hkeep; [|exact Hrun]. apply lookup_insert_eq.
Qed.

Lemma os_makedirs_ok path (w w' : world scalar) :
  os_makedirs path w = (Ok tt, w') ->
  fs_stat (fs w') (components path) = Some Directory /\ console w' = console w.
Proof.
  unfold os_makedirs. destruct (bool_decide (path = "")); [discriminate|].
  destruct (makedirs_from [] (components path) (fs w)) as [r files'] eqn:Hrun.
  intros [= -> <-]. cbn [fs console]. split; [|reflexivity].
  destruct (components path) as [|c cs] eqn:Hc; [reflexivity|].
  cbn [fs_stat]. apply (makedirs_from_ok (c :: cs) [] (fs w) files' Hrun). discriminate.
Qed.

Lemma convert_model_missing base model_name h5_path (w : world scalar) :
  stat_path (fs w) h5_path = None ->
  convert_model float32_bits base (model_name, h5_path) w
  = (Ok tt, mk_world (fs w) (console w ++ [Converting model_name; WarningNotFound h5_path])).
Proof.
  intros Hstat. unfold convert_model, bind, print, os_path_exists. cbn [fs console].
  rewrite Hstat. cbn. now rewrite <- app_assoc.
Qed.

Lemma convert_model_failed base model_name h5_path (w : world scalar) :
  stat_path (fs w) h5_path <> None ->
  extraction_outcome (fs w) h5_path = Ok None ->
  exists log,
    convert_model float32_bits base (model_name, h5_path) w
    = (Ok tt, mk_world (fs w) (console w ++ Converting model_name :: log
                                 ++ [FailedToExtract h5_path])).
Proof.
  intros Hstat Hout. unfold convert_model, bind, print at 1, os_path_exists.
  cbn [fs console].
  destruct (stat_path (fs w) h5_path) as [e|] eqn:He; [clear Hstat|congruence].
  cbn [negb].
  set (w0 := mk_world (fs w) (console w ++ [Converting model_name])).
  destruct (extract_h5_weights_outcome h5_path w0) as (Hr & Hfs & log & Hlog).
  change (fs w0) with (fs w) in Hr, Hfs. rewrite Hout in Hr.
  destruct (extract_h5_weights h5_path w0) as [r w1] eqn:Hrun. cbn in Hr, Hfs, Hlog.
  subst r. unfold print. rewrite Hfs, Hlog. exists log.
  rewrite <- !app_assoc. reflexivity.
Qed.

Lemma convert_model_converts base model_name h5_path (w w1 w2 : world scalar) weights :
  stat_path (fs w) h5_path <> None ->
  extract_h5_weights h5_path (mk_world (fs w) (console w ++ [Converting model_name]))
  = (Ok (Some weights), w1) ->
  os_makedirs (os_path_join base model_name) w1 = (Ok tt, w2) ->
  fs_stat (fs w2) (bin_file (os_path_join base model_name)) <> Some Directory ->
  exists log,
    convert_model float32_bits base (model_name, h5_path) w
    = (Ok tt,
       mk_world
         (<[bin_file (os_path_join base model_name) :=
              RegularFile (concat (map (slot_bytes float32_bits weights)
                                       (written_slots weights)))]> (fs w2))
         (console w2 ++ log ++ [SuccessfullyConverted model_name;
                                WeightsSavedTo (os_path_join base model_name)])).
Proof.
  intros Hstat Hextract Hmk Hbin.
  unfold convert_model, bind, print at 1, os_path_exists. cbn [fs console].
  destruct (stat_path (fs w) h5_path) as [e|] eqn:He; [clear Hstat|congruence].
  cbn [negb]. rewrite Hextract, Hmk.
  destruct (os_makedirs_ok _ _ _ Hmk) as [Hdir _].
  destruct (create_tfjs_weights_run float32_bits weights _ w2 Hdir Hbin) as [log Hrun].
  rewrite Hrun. exists log. unfold print. cbn [fs console].
  rewrite <- !app_assoc. reflexivity.
Qed.

End DriverRuns.

(** ** Lengths and reading back *)

Section PackerBytes.
Context {scalar : Type}.
Variable float32_bits : scalar -> Z.

Lemma fs_stat_insert_bin (files : gmap (list string) (fsentry scalar)) output_path e :
  fs_stat (<[bin_file output_path := e]> files) (components output_path)
  = fs_stat files (components output_path).
Proof.
  unfold bin_file. rewrite components_join_bin.
  destruct (components output_path) as [|c cs] eqn:Hc; [reflexivity|].
  cbn [fs_stat]. apply lookup_insert_ne.
  intros H. apply (f_equal length) in H. rewrite length_app in H. cbn in H. lia.
Qed.

Lemma written_slots_none (weights : gmap string (ndarray scalar)) :
  (forall slot, slot ∈ weight_order -> weights !! slot = None) ->
  written_slots weights = [].
Proof.
  intros Hnone. unfold written_slots, held_slots.
  induction weight_order as [|slot order IH]; [reflexivity|].
  rewrite filter_cons_False.
  - apply IH. intros s Hs. apply Hnone. now right.
  - rewrite Hnone by now left. intros [? ?]; discriminate.
Qed.

Lemma length_slot_bytes (weights : gmap string (ndarray scalar)) slot :
  map_Forall (fun _ arr => ndarray_wf arr) weights ->
  is_Some (weights !! slot) ->
  length (slot_bytes float32_bits weights slot) = slot_nbytes weights slot.
Proof.
  intros Hwf [arr Hslot]. unfold slot_bytes, slot_nbytes, slot_shape.
  rewrite Hslot, length_tobytes. cbn [data astype_float32]. rewrite length_map.
  now rewrite (Hwf _ _ Hslot).
Qed.

Lemma length_packed (weights : gmap string (ndarray scalar)) slots :
  map_Forall (fun _ arr => ndarray_wf arr) weights ->
  Forall (fun slot => is_Some (weights !! slot)) slots ->
  length (concat (map (slot_bytes float32_bits weights) slots))
  = sum_list (map (slot_nbytes weights) slots).
Proof.
  intros Hwf. induction 1 as [|slot slots Hslot _ IH]; [reflexivity|].
  cbn [map concat sum_list]. now rewrite length_app, IH, length_slot_bytes.
Qed.

Lemma Forall_map_all {A B : Type} (P : B -> Prop) (f : A -> B) (l : list A) :
  (forall x, P (f x)) -> Forall P (map f l).
Proof. intros H. induction l; constructor; auto. Qed.

Lemma read_back_packed (weights : gmap string (ndarray scalar)) :
  (forall x, 0 <= float32_bits x < 2 ^ 32) ->
  map_Forall (fun _ arr => ndarray_wf arr) weights ->
  forall slots pre rest,
  Forall (fun slot => is_Some (weights !! slot)) slots ->
  read_back (pre ++ concat (map (slot_bytes float32_bits weights) slots) ++ rest)
            (length pre) (map (slot_spec weights) slots)
  = map (fun slot => (slot, astype_float32 float32_bits <$> weights !! slot)) slots.
Proof.
  intros Hrange Hwf. induction slots as [|slot slots IH]; intros pre rest Hall;
    [reflexivity|].
  apply Forall_cons in Hall as [[arr Hslot] Hall].
  cbn [map concat read_back slot_spec name spec_shape].
  pose proof (length_slot_bytes weights slot Hwf (ex_intro _ arr Hslot)) as Hlen.
  unfold slot_nbytes in Hlen.
  f_equal.
  - f_equal. rewrite drop_app_length.
    rewrite <- !app_assoc, <- Hlen, take_app_length.
    unfold slot_bytes, slot_shape in *. rewrite Hslot in *. cbn [fmap option_fmap option_map].
    unfold tobytes. cbn [data astype_float32].
    rewrite frombuffer_tobytes by (apply Forall_map_all, Hrange).
    unfold reshape. rewrite decide_True; [reflexivity|].
    rewrite length_map. apply (Hwf _ _ Hslot).
  - rewrite <- Hlen, <- length_app.
    rewrite <- app_assoc.
    rewrite (app_assoc pre). apply IH, Hall.
Qed.

End PackerBytes.

(** ** The claims about the Packer *)

Section PackerClaims.
Context {scalar : Type}.
Variable float32_bits : scalar -> Z.

Lemma written_slots_sound (weights : gmap string (ndarray scalar)) :
  Forall (fun slot => is_Some (weights !! slot)) (written_slots weights).
Proof.
  apply Forall_forall. intros slot Hin. unfold written_slots, held_slots in Hin.
  apply list_elem_of_filter in Hin. tauto.
Qed.

(** C5 (confirmed).  Whenever the output directory exists (and the file name
    is not taken by a directory), the Packer returns normally, whatever the
    WeightSet holds.  The tensors it writes are the slots of the fixed
    8-slot [weight_order] that the WeightSet holds, in that order: the
    manifest names them in that order and the file is exactly their
    serializations one after the other, an absent slot contributing no byte.
    In particular, without the two [dense_2] slots and with the other six,
    six tensors are written back to back. *)
Theorem C5_fixed_order_absent_slots_skipped
    (weights : gmap string (ndarray scalar)) output_path (w : world scalar) :
  fs_stat (fs w) (components output_path) = Some Directory ->
  fs_stat (fs w) (bin_file output_path) <> Some Directory ->
  exists specs w',
    create_tfjs_weights float32_bits weights output_path w = (Ok specs, w')
    /\ weight_order = [ "dense/kernel"; "dense/bias"; "dense_1/kernel"; "dense_1/bias";
                        "dense_2/kernel"; "dense_2/bias"; "dense_3/kernel"; "dense_3/bias" ]
    /\ map name specs = filter (fun slot => is_Some (weights !! slot)) weight_order
    /\ fs w' !! bin_file output_path
       = Some (RegularFile
                 (concat (map (slot_bytes float32_bits weights)
                              (filter (fun slot => is_Some (weights !! slot)) weight_order))))
    /\ (weights !! "dense_2/kernel" = None -> weights !! "dense_2/bias" = None ->
        is_Some (weights !! "dense/kernel") -> is_Some (weights !! "dense/bias") ->
        is_Some (weights !! "dense_1/kernel") -> is_Some (weights !! "dense_1/bias") ->
        is_Some (weights !! "dense_3/kernel") -> is_Some (weights !! "dense_3/bias") ->
        map name specs = [ "dense/kernel"; "dense/bias"; "dense_1/kernel"; "dense_1/bias";
                           "dense_3/kernel"; "dense_3/bias" ]
        /\ fs w' !! bin_file output_path
           = Some (RegularFile
                     (slot_bytes float32_bits weights "dense/kernel"
                      ++ slot_bytes float32_bits weights "dense/bias"
                      ++ slot_bytes float32_bits weights "dense_1/kernel"
                      ++ slot_bytes float32_bits weights "dense_1/bias"
                      ++ slot_bytes float32_bits weights "dense_3/kernel"
                      ++ slot_bytes float32_bits weights "dense_3/bias"))).
Proof.
  intros Hdir Hbin.
  destruct (create_tfjs_weights_run float32_bits weights output_path w Hdir Hbin)
    as [log Hrun].
  eexists _, _. split; [exact Hrun|]. split; [reflexivity|].
  assert (Hnames : map name (map (slot_spec weights) (written_slots weights))
                   = written_slots weights).
  { rewrite map_map. cbn [name slot_spec]. apply map_id. }
  split; [exact Hnames|]. cbn [fs]. rewrite lookup_insert_eq. split; [reflexivity|].
  intros Hk Hb H1 H2 H3 H4 H5 H6. rewrite Hnames.
  assert (Hslots : written_slots weights
                   = [ "dense/kernel"; "dense/bias"; "dense_1/kernel"; "dense_1/bias";
                       "dense_3/kernel"; "dense_3/bias" ]).
  { unfold written_slots, held_slots, weight_order.
    repeat first [ rewrite filter_cons_True by assumption
                 | rewrite filter_cons_False
                     by (first [rewrite Hk | rewrite Hb]; intros [? ?]; discriminate) ].
    reflexivity. }
  rewrite Hslots. cbn [map concat]. now rewrite app_nil_r.
Qed.

(** C6 (confirmed).  For a WeightSet of well-formed arrays, the file the
    Packer writes is as long as the sum of [4 * element count] over the
    written tensors, and the returned WeightSpec has one entry per written
    tensor, in write order, with its name, its shape and the dtype
    ["float32"].  A WeightSet with exactly [dense/kernel] of shape (4,3) and
    [dense/bias] of shape (3,) gives a 60-byte file and the two-entry
    WeightSpec. *)
Theorem C6_byte_length_and_manifest
    (weights : gmap string (ndarray scalar)) output_path (w : world scalar) :
  fs_stat (fs w) (components output_path) = Some Directory ->
  fs_stat (fs w) (bin_file output_path) <> Some Directory ->
  map_Forall (fun _ arr => ndarray_wf arr) weights ->
  exists specs w' content,
    create_tfjs_weights float32_bits weights output_path w = (Ok specs, w')
    /\ fs w' !! bin_file output_path = Some (RegularFile content)
    /\ length content
       = sum_list (map (fun slot => (4 * size_of_shape (slot_shape weights slot))%nat)
                       (written_slots weights))
    /\ specs = map (fun slot => mk_weight_spec slot (slot_shape weights slot) "float32")
                   (written_slots weights)
    /\ (forall kernel bias,
          weights = <["dense/kernel" := kernel]> (<["dense/bias" := bias]> ∅) ->
          shape kernel = [4; 3]%nat -> shape bias = [3]%nat ->
          length content = 60%nat
          /\ specs = [ mk_weight_spec "dense/kernel" [4; 3]%nat "float32";
                       mk_weight_spec "dense/bias" [3]%nat "float32" ]).
Proof.
  intros Hdir Hbin Hwf.
  destruct (create_tfjs_weights_run float32_bits weights output_path w Hdir Hbin)
    as [log Hrun].
  eexists _, _, _. split; [exact Hrun|]. cbn [fs]. rewrite lookup_insert_eq.
  split; [reflexivity|].
  rewrite length_packed by (exact Hwf || apply written_slots_sound).
  split; [reflexivity|]. split; [reflexivity|].
  intros kernel bias -> Hk Hb.
  assert (Hslots : written_slots (<["dense/kernel" := kernel]> (<["dense/bias" := bias]> ∅))
                   = ["dense/kernel"; "dense/bias"]).
  { unfold written_slots, held_slots, weight_order.
    repeat first [ rewrite filter_cons_True by (simplify_map_eq; eauto)
                 | rewrite filter_cons_False by (simplify_map_eq; intros [? ?]; discriminate) ].
    reflexivity. }
  rewrite Hslots. unfold slot_spec, slot_nbytes, slot_shape. cbn [map sum_list].
  simplify_map_eq. rewrite Hk, Hb. split; reflexivity.
Qed.

(** C7 (confirmed).  Reading the file back along the WeightSpec, each tensor
    at the running sum of the sizes before it, as little-endian float32 in
    row-major order, reshaped to the recorded shape, gives back every
    written tensor as it was after the cast to float32: the same shape and
    the same float32 values bit for bit. *)
Theorem C7_read_back_round_trip
    (weights : gmap string (ndarray scalar)) output_path (w : world scalar) :
  (forall x, 0 <= float32_bits x < 2 ^ 32) ->
  fs_stat (fs w) (components output_path) = Some Directory ->
  fs_stat (fs w) (bin_file output_path) <> Some Directory ->
  map_Forall (fun _ arr => ndarray_wf arr) weights ->
  exists specs w' content,
    create_tfjs_weights float32_bits weights output_path w = (Ok specs, w')
    /\ fs w' !! bin_file output_path = Some (RegularFile content)
    /\ read_back content 0 specs
       = map (fun slot => (slot, astype_float32 float32_bits <$> weights !! slot))
             (written_slots weights)
    /\ (forall slot arr, slot ∈ weight_order -> weights !! slot = Some arr ->
        (slot, Some (astype_float32 float32_bits arr)) ∈ read_back content 0 specs).
Proof.
  intros Hrange Hdir Hbin Hwf.
  destruct (create_tfjs_weights_run float32_bits weights output_path w Hdir Hbin)
    as [log Hrun].
  eexists _, _, _. split; [exact Hrun|]. cbn [fs]. rewrite lookup_insert_eq.
  split; [reflexivity|].
  assert (Hread : read_back
                    (concat (map (slot_bytes float32_bits weights) (written_slots weights)))
                    0 (map (slot_spec weights) (written_slots weights))
                  = map (fun slot => (slot, astype_float32 float32_bits <$> weights !! slot))
                        (written_slots weights)).
  { pose proof (read_back_packed float32_bits weights Hrange Hwf
                  (written_slots weights) [] [] (written_slots_sound weights)) as H.
    cbn [app length] in H. now rewrite app_nil_r in H. }
  split; [exact Hread|].
  intros slot arr Hin Hslot. rewrite Hread.
  apply list_elem_of_fmap. exists slot. rewrite Hslot. split; [reflexivity|].
  apply list_elem_of_filter. split; [rewrite Hslot; eauto | exact Hin].
Qed.

(** C9 (confirmed).  The Packer's output depends on the WeightSet alone: two
    runs on the same WeightSet, in any two worlds and output directories in
    which the file can be opened, return the same WeightSpec and write the
    same bytes; running it again over its own output changes nothing. *)
Theorem C9_packer_deterministic
    (weights : gmap string (ndarray scalar)) out1 out2 (w1 w2 : world scalar) :
  fs_stat (fs w1) (components out1) = Some Directory ->
  fs_stat (fs w1) (bin_file out1) <> Some Directory ->
  fs_stat (fs w2) (components out2) = Some Directory ->
  fs_stat (fs w2) (bin_file out2) <> Some Directory ->
  exists specs content w1' w2' w1'',
    create_tfjs_weights float32_bits weights out1 w1 = (Ok specs, w1')
    /\ create_tfjs_weights float32_bits weights out2 w2 = (Ok specs, w2')
    /\ fs w1' !! bin_file out1 = Some (RegularFile content)
    /\ fs w2' !! bin_file out2 = Some (RegularFile content)
    /\ create_tfjs_weights float32_bits weights out1 w1' = (Ok specs, w1'')
    /\ fs w1'' = fs w1'.
Proof.
  intros Hdir1 Hbin1 Hdir2 Hbin2.
  destruct (create_tfjs_weights_run float32_bits weights out1 w1 Hdir1 Hbin1) as [log1 Hrun1].
  destruct (create_tfjs_weights_run float32_bits weights out2 w2 Hdir2 Hbin2) as [log2 Hrun2].
  set (w1' := mk_world
                (<[bin_file out1 :=
                     RegularFile (concat (map (slot_bytes float32_bits weights)
                                              (written_slots weights)))]> (fs w1))
                (console w1 ++ log1)) in *.
  destruct (create_tfjs_weights_run float32_bits weights out1 w1') as [log3 Hrun3].
  { subst w1'. cbn [fs]. now rewrite fs_stat_insert_bin. }
  { subst w1'. cbn [fs]. pose proof (bin_file_nonempty out1).
    destruct (bin_file out1) eqn:Hb; [congruence|]. cbn [fs_stat].
    rewrite <- Hb, lookup_insert_eq. discriminate. }
  eexists _, _, w1', _, _. split; [exact Hrun1|]. split; [exact Hrun2|].
  split; [subst w1'; cbn [fs]; apply lookup_insert_eq|].
  split; [cbn [fs]; apply lookup_insert_eq|].
  split; [exact Hrun3|]. subst w1'. cbn [fs]. apply insert_insert_eq.
Qed.

(** C10 (confirmed).  With a WeightSet that holds none of the eight slots,
    the Packer, given an existing output directory, returns the empty
    WeightSpec without raising, and leaves [group1-shard1of1.bin] there as a
    file of 0 bytes. *)
Theorem C10_empty_weightset_gives_empty_file
    (weights : gmap string (ndarray scalar)) output_path (w : world scalar) :
  (forall slot, slot ∈ weight_order -> weights !! slot = None) ->
  fs_stat (fs w) (components output_path) = Some Directory ->
  fs_stat (fs w) (bin_file output_path) <> Some Directory ->
  exists w' content,
    create_tfjs_weights float32_bits weights output_path w = (Ok [], w')
    /\ fs w' !! bin_file output_path = Some (RegularFile content)
    /\ length content = 0%nat.
Proof.
  intros Hnone Hdir Hbin.
  destruct (create_tfjs_weights_run float32_bits weights output_path w Hdir Hbin)
    as [log Hrun].
  rewrite (written_slots_none weights Hnone) in Hrun.
  eexists _, _. split; [exact Hrun|]. cbn [fs]. rewrite lookup_insert_eq.
  split; reflexivity.
Qed.

End PackerClaims.

(** ** Keys of the extracted dictionary *)

Section ExtractorKeys.
Context {scalar : Type}.

Lemma h5_node_below (root child : h5obj scalar) n path :
  h5_node root [n] = Some child -> h5_node root (n :: path) = h5_node child path.
Proof.
  cbn [h5_node]. destruct root as [ms|? ?]; [|discriminate].
  destruct (lookup_member n ms); [|discriminate]. now intros [= ->].
Qed.

Lemma h5_getitem_node (f : h5obj scalar) n :
  h5_getitem f n = match h5_node f [n] with Some child => Ok child
                   | None => match f with H5Group _ => Raise KeyError
                             | H5Dataset _ _ => Raise ValueError end end.
Proof.
  unfold h5_getitem. cbn [h5_node]. destruct f as [ms|? ?]; [|reflexivity].
  now destruct (lookup_member n ms).
Qed.

Lemma try_block_ok (f : h5obj scalar) w weights w' :
  try_block f (∅, w) = (Ok tt, (weights, w')) ->
  exists layers_root,
    h5_node f ["layers"] = Some layers_root
    /\ weights = complete_weights f
    /\ Forall (fun l =>
                 readable_if_present (h5_node layers_root [l; "vars"; "0"])
                 /\ readable_if_present (h5_node layers_root [l; "vars"; "1"]))
              layer_names.
Proof.
  unfold try_block, bind, lift, complete_weights. rewrite h5_getitem_node.
  destruct (h5_node f ["layers"]) as [lr|]; [|destruct f; discriminate].
  intros Hrun. apply extract_layers_ok in Hrun as [-> Hall]. eauto.
Qed.

Lemma lookup_insert_if_some key (o : option (ndarray scalar)) weights k :
  is_Some (insert_if_some key o weights !! k)
  <-> (k = key /\ is_Some o) \/ is_Some (weights !! k).
Proof.
  unfold insert_if_some. destruct o as [arr|].
  - rewrite lookup_insert. case_decide; subst.
    + split; eauto.
    + split; [tauto|]. intros [[? _]|?]; [congruence|assumption].
  - split; [tauto|]. intros [[_ [? ?]]|?]; [discriminate|assumption].
Qed.

Lemma lookup_fold_layer_slots (layers_root : h5obj scalar) names :
  forall weights k,
  is_Some (fold_left (layer_slots layers_root) names weights !! k)
  <-> is_Some (weights !! k)
      \/ exists l, l ∈ names
           /\ ((k = l +:+ "/kernel"
                /\ is_Some (dataset_array (h5_node layers_root [l; "vars"; "0"])))
               \/ (k = l +:+ "/bias"
                   /\ is_Some (dataset_array (h5_node layers_root [l; "vars"; "1"])))).
Proof.
  induction names as [|l names IH]; intros weights k; cbn [fold_left].
  - split; [tauto|]. intros [?|(l & Hin & _)]; [assumption|]. inversion Hin.
  - rewrite IH. unfold layer_slots. rewrite !lookup_insert_if_some. split.
    + intros [[[Hk Ho]|[[Hk Ho]|Hw]]|(l' & Hin & Hl')].
      * right. exists l. split; [left|]. tauto.
      * right. exists l. split; [left|]. tauto.
      * now left.
      * right. exists l'. split; [now right|assumption].
    + intros [Hw|(l' & Hin & Hl')]; [tauto|].
      apply elem_of_cons in Hin as [->|Hin]; [tauto|].
      right. eauto.
Qed.

Lemma is_Some_dataset_array (o : option (h5obj scalar)) :
  readable_if_present o -> (is_Some (dataset_array o) <-> is_Some o).
Proof.
  destruct o as [[?|? [?|?]]|]; cbn; intros H; try contradiction;
    split; intros [? ?]; try discriminate; eauto.
Qed.

Lemma layer_key_cases (l l' : string) :
  l ∈ layer_names -> l' ∈ layer_names ->
  (l +:+ "/kernel" = l' +:+ "/kernel" -> l = l')
  /\ (l +:+ "/bias" = l' +:+ "/bias" -> l = l')
  /\ l +:+ "/kernel" <> l' +:+ "/bias"
  /\ l +:+ "/bias" <> l' +:+ "/kernel".
Proof.
  unfold layer_names. intros Hl Hl'.
  repeat (apply elem_of_cons in Hl as [->|Hl]);
    [| | | |inversion Hl];
    repeat (apply elem_of_cons in Hl' as [->|Hl']);
    try (inversion Hl'; fail);
    repeat split; try reflexivity; intros H; vm_compute in H; discriminate H.
Qed.

End ExtractorKeys.

(** ** The claims about the Extractor *)

Section ExtractorClaims.
Context {scalar : Type}.

(** C8 (confirmed).  For a container whose top-level [layers] is a group:
    the WeightSet the Extractor returns has the key [<layer>/kernel] exactly
    when the node [layers/<layer>/vars/0] is present and [<layer>/bias]
    exactly when [layers/<layer>/vars/1] is, for the four fixed layer names,
    and it has no other key; and absent layers, absent [vars] groups and
    absent indices never make the Extractor fail: when every node that is
    present on these paths is of the expected kind, a WeightSet is
    returned. *)
Theorem C8_keys_match_present_nodes
    h5_file_path (w : world scalar) (root : h5obj scalar) members :
  stat_path (fs w) h5_file_path = Some (ContainerFile root) ->
  h5_node root ["layers"] = Some (H5Group members) ->
  layer_names = ["dense"; "dense_1"; "dense_2"; "dense_3"]
  /\ (forall weights w',
        extract_h5_weights h5_file_path w = (Ok (Some weights), w') ->
        (forall l, l ∈ layer_names ->
           (is_Some (weights !! (l +:+ "/kernel"))
            <-> is_Some (h5_node root ["layers"; l; "vars"; "0"]))
           /\ (is_Some (weights !! (l +:+ "/bias"))
               <-> is_Some (h5_node root ["layers"; l; "vars"; "1"])))
        /\ (forall key, is_Some (weights !! key) ->
              exists l, l ∈ layer_names
                        /\ (key = l +:+ "/kernel" \/ key = l +:+ "/bias")))
  /\ ((forall l, l ∈ layer_names -> layer_well_kinded root l) ->
      exists weights w', extract_h5_weights h5_file_path w = (Ok (Some weights), w')).
Proof.
  intros Hstat Hlayers. split; [reflexivity|]. split.
  - intros weights w'. rewrite (extract_h5_weights_opened _ _ root Hstat).
    destruct (try_block root _) as [[[]|e] [ws w1]] eqn:Hrun; [|discriminate].
    intros [= -> ->].
    apply try_block_ok in Hrun as (lr & Hlr & -> & Hall).
    rewrite Hlayers in Hlr. injection Hlr as <-.
    unfold complete_weights. rewrite Hlayers.
    assert (Hnode : forall path,
               h5_node root ("layers" :: path) = h5_node (H5Group members) path)
      by (intros path; now apply h5_node_below).
    split.
    + intros l Hl. rewrite !Hnode, !lookup_fold_layer_slots.
      rewrite Forall_forall in Hall.
      destruct (Hall l Hl) as [H0 H1].
      rewrite <- (is_Some_dataset_array _ H0), <- (is_Some_dataset_array _ H1).
      split; split.
      * intros [[? Hempty]|(l' & Hl' & [[Hk Hpresent]|[Hk _]])].
        -- now rewrite lookup_empty in Hempty.
        -- apply (layer_key_cases l l' Hl Hl') in Hk as ->. exact Hpresent.
        -- now apply (layer_key_cases l l' Hl Hl') in Hk.
      * intros Hpresent. right. exists l. eauto.
      * intros [[? Hempty]|(l' & Hl' & [[Hk _]|[Hk Hpresent]])].
        -- now rewrite lookup_empty in Hempty.
        -- now apply (layer_key_cases l l' Hl Hl') in Hk.
        -- apply (layer_key_cases l l' Hl Hl') in Hk as ->. exact Hpresent.
      * intros Hpresent. right. exists l. eauto.
    + intros key. rewrite lookup_fold_layer_slots.
      intros [[? Hempty]|(l & Hl & [[Hk _]|[Hk _]])].
      * now rewrite lookup_empty in Hempty.
      * exists l. auto.
      * exists l. auto.
  - intros Hkinds. rewrite (extract_h5_weights_opened _ _ root Hstat).
    unfold try_block, bind, lift. rewrite h5_getitem_node, Hlayers.
    destruct (extract_layers_succeeds (H5Group members) layer_names) with
      (s := (∅ : gmap string (ndarray scalar), after_dump h5_file_path root w))
      as [[ws w1] Hrun].
    + eauto.
    + apply Forall_forall. intros l Hl.
      destruct (Hkinds l Hl) as (Hg & Hv & H0 & H1).
      rewrite !(h5_node_below root (H5Group members)) in Hg, Hv, H0, H1 by exact Hlayers.
      auto.
    + rewrite Hrun. eauto.
Qed.

(** C2 (amended).  For a path that opens as a container: if an exception is
    raised inside the guarded block (the lookup of [layers], the membership
    tests, the indexing, the dataset reads), the Extractor returns [None],
    whatever part of the dictionary was filled by then; and a WeightSet it
    returns is never partial: the guarded block ran to its end and the
    WeightSet is the complete one of the container. *)
Theorem C2_guarded_failure_returns_None
    h5_file_path (w : world scalar) (f : h5obj scalar) :
  stat_path (fs w) h5_file_path = Some (ContainerFile f) ->
  (forall e partial w1,
     try_block f (∅, after_dump h5_file_path f w) = (Raise e, (partial, w1)) ->
     extract_h5_weights h5_file_path w
     = (Ok None, mk_world (fs w1) (console w1 ++ [ErrorExtracting e])))
  /\ (forall weights w',
        extract_h5_weights h5_file_path w = (Ok (Some weights), w') ->
        try_block f (∅, after_dump h5_file_path f w) = (Ok tt, (weights, w'))
        /\ weights = complete_weights f).
Proof.
  intros Hstat. rewrite (extract_h5_weights_opened _ _ f Hstat). split.
  - intros e partial w1 ->. reflexivity.
  - intros weights w'.
    destruct (try_block f _) as [[[]|e] [ws w1]] eqn:Hrun; [|discriminate].
    intros [= -> ->]. split; [reflexivity|].
    now apply try_block_ok in Hrun as (_ & _ & -> & _).
Qed.

End ExtractorClaims.

(** ** The claims about the driver *)

Section DriverClaims.
Context {scalar : Type}.
Variable float32_bits : scalar -> Z.


Lemma convert_model_soft base job (w : world scalar) :
  fails_softly (fs w) job ->
  exists log,
    convert_model float32_bits base job w
    = (Ok tt, mk_world (fs w) (console w ++ Converting (fst job) :: log)).
Proof.
  destruct job as [model_name h5_path]. unfold fails_softly. cbn [fst snd].
  destruct (stat_path (fs w) h5_path) as [e|] eqn:Hstat.
  - intros [?|Hout]; [discriminate|].
    destruct (convert_model_failed float32_bits base model_name h5_path w) as [log Hrun];
      [congruence|exact Hout|]. eauto.
  - intros _. rewrite (convert_model_missing _ _ _ _ _ Hstat). eauto.
Qed.

(** C3 (amended).  An entry whose source is missing, or whose extraction
    returns [None], never aborts the entries after it: the driver goes on
    with the rest of the list, on an unchanged file system.  When every
    entry fails in one of these two ways the driver still returns normally,
    having printed the banner of every entry. *)
Theorem C3_soft_failures_do_not_abort
    base job rest (w : world scalar) :
  fails_softly (fs w) job ->
  (exists log,
     convert_models float32_bits base (job :: rest) w
     = convert_models float32_bits base rest
         (mk_world (fs w) (console w ++ Converting (fst job) :: log)))
  /\ (Forall (fails_softly (fs w)) rest ->
      exists log,
        convert_models float32_bits base (job :: rest) w
        = (Ok tt, mk_world (fs w) (console w ++ log))
        /\ forall j, j ∈ job :: rest -> Converting (fst j) ∈ log).
Proof.
  intros Hjob.
  assert (Hall : forall jobs (w0 : world scalar),
             Forall (fails_softly (fs w0)) jobs ->
             exists log,
               convert_models float32_bits base jobs w0
               = (Ok tt, mk_world (fs w0) (console w0 ++ log))
               /\ forall j, j ∈ jobs -> Converting (fst j) ∈ log).
  { induction jobs as [|j jobs IH]; intros w0 Hjobs.
    - exists []. cbn. unfold ret. rewrite app_nil_r. split; [now destruct w0|].
      intros j Hin. inversion Hin.
    - apply Forall_cons in Hjobs as [Hj Hjobs].
      destruct (convert_model_soft base j w0 Hj) as [log Hrun].
      cbn [convert_models]. unfold bind at 1. rewrite Hrun.
      destruct (IH (mk_world (fs w0) (console w0 ++ Converting (fst j) :: log)))
        as (log' & Hrest & Hbanners); [exact Hjobs|].
      rewrite Hrest. cbn [fs console].
      exists ((Converting (fst j) :: log) ++ log'). rewrite app_assoc.
      split; [reflexivity|]. intros j' Hin. rewrite elem_of_app.
      apply elem_of_cons in Hin as [->|Hin]; [left; now left|right; auto]. }
  split.
  - destruct (convert_model_soft base job w Hjob) as [log Hrun].
    exists log. cbn [convert_models]. unfold bind at 1. now rewrite Hrun.
  - intros Hrest. apply Hall. now constructor.
Qed.

(** C4 (amended).  The Packer does not create the output directory: without
    it the Packer raises and leaves the world as it was.  The driver creates
    it, with [os.makedirs], before it invokes the Packer, so that after a
    converted job the directory exists and holds the packed file.  Given the
    directory, the Packer overwrites a file already at
    [group1-shard1of1.bin]: nothing of the old content remains. *)
Theorem C4_directory_made_by_driver
    (weights : gmap string (ndarray scalar)) output_path (w : world scalar) :
  (fs_stat (fs w) (components output_path) = None ->
   exists e, create_tfjs_weights float32_bits weights output_path w = (Raise e, w))
  /\ (forall base model_name h5_path w1 w2,
        output_path = os_path_join base model_name ->
        stat_path (fs w) h5_path <> None ->
        extract_h5_weights h5_path
          (mk_world (fs w) (console w ++ [Converting model_name]))
        = (Ok (Some weights), w1) ->
        os_makedirs output_path w1 = (Ok tt, w2) ->
        fs_stat (fs w2) (bin_file output_path) <> Some Directory ->
        exists w',
          convert_model float32_bits base (model_name, h5_path) w = (Ok tt, w')
          /\ fs_stat (fs w') (components output_path) = Some Directory
          /\ fs w' !! bin_file output_path
             = Some (RegularFile (concat (map (slot_bytes float32_bits weights)
                                              (written_slots weights)))))
  /\ (forall old,
        fs_stat (fs w) (components output_path) = Some Directory ->
        fs w !! bin_file output_path = Some (RegularFile old) ->
        exists specs w',
          create_tfjs_weights float32_bits weights output_path w = (Ok specs, w')
          /\ fs w' !! bin_file output_path
             = Some (RegularFile (concat (map (slot_bytes float32_bits weights)
                                              (written_slots weights))))).
Proof.
  split; [apply create_tfjs_weights_needs_directory|]. split.
  - intros base model_name h5_path w1 w2 -> Hstat Hextract Hmk Hbin.
    destruct (convert_model_converts float32_bits base model_name h5_path w w1 w2 weights
                Hstat Hextract Hmk Hbin) as [log Hrun].
    eexists. split; [exact Hrun|]. cbn [fs].
    rewrite fs_stat_insert_bin, lookup_insert_eq.
    split; [apply (os_makedirs_ok _ _ _ Hmk)|reflexivity].
  - intros old Hdir Hold.
    destruct (create_tfjs_weights_run float32_bits weights output_path w Hdir) as [log Hrun].
    { pose proof (bin_file_nonempty output_path).
      destruct (bin_file output_path) eqn:Hb; [congruence|]. cbn [fs_stat].
      rewrite Hold. discriminate. }
    eexists _, _. split; [exact Hrun|]. cbn [fs]. apply lookup_insert_eq.
Qed.

End DriverClaims.

(** ** The claims at concrete inputs *)

(** A one-dimensional dataset where a group is expected is no member test
    failure: [name in dataset] answers [False].  A dataset named [dense] is
    skipped as a layer and the WeightSet is empty; a dataset named [vars] in
    [dense_1] is skipped too and the WeightSet holds the two tensors of
    [dense]. *)
Lemma dataset_in_place_of_a_group :
  extraction_outcome disk_with_flat "/in/flat.h5" = Ok (Some ∅)
  /\ extraction_outcome disk_with_flat "/in/flat_vars.h5" = Ok (Some two_slots).
Proof. split; vm_compute; reflexivity. Qed.

Lemma keep_bits_range (x : Z) : 0 <= keep_bits x < 2 ^ 32.
Proof.
  unfold keep_bits. rewrite Z.land_ones by lia. apply Z.mod_pos_bound. lia.
Qed.

Lemma two_slots_wf : map_Forall (fun _ arr => ndarray_wf arr) two_slots.
Proof.
  unfold two_slots.
  repeat (apply map_Forall_insert_2; [reflexivity|]). apply map_Forall_empty.
Qed.


(** C2 fails as stated: [/in/notes.txt] is no container, [h5py.File] raises
    [OSError] outside the [try], and the Extractor returns nothing at all:
    the exception leaves it. *)
Lemma C2_counterexample :
  stat_path (fs boot) "/in/notes.txt" = Some (RegularFile [104; 105])
  /\ extract_h5_weights "/in/notes.txt" boot = (Raise OSError, boot).
Proof. split; vm_compute; reflexivity. Qed.

(** C3 fails as stated, for an extraction error and for a packing error: the
    source of the first entry is no container, or the file name of its
    output is taken by a directory; the exception leaves the driver, and the
    second entry, which would convert, is never reached. *)
Lemma C3_counterexample :
  convert_models keep_bits "/out" [("bad", "/in/notes.txt"); ("one", "/in/one.h5")] boot
  = (Raise OSError, mk_world disk [Converting "bad"])
  /\ (exists w',
        convert_models keep_bits "/out" [("taken", "/in/one.h5"); ("one", "/in/one.h5")] boot
        = (Raise IsADirectoryError, w')
        /\ fs w' = disk
        /\ Converting "one" ∉ console w')
  /\ fst (convert_models keep_bits "/out" [("one", "/in/one.h5")] boot) = Ok tt.
Proof.
  split; [vm_compute; reflexivity|]. split; [|vm_compute; reflexivity].
  eexists. split; [vm_compute; reflexivity|]. split; [vm_compute; reflexivity|].
  intros Hin. repeat (apply elem_of_cons in Hin as [Heq|Hin]; [discriminate Heq|]).
  inversion Hin.
Qed.

(** C4 fails as stated: on a missing output directory the Packer raises
    [FileNotFoundError] and creates nothing. *)
Lemma C4_counterexample :
  fs_stat (fs boot) (components "/out/m") = None
  /\ create_tfjs_weights keep_bits two_slots "/out/m" boot = (Raise FileNotFoundError, boot).
Proof. split; vm_compute; reflexivity. Qed.

Lemma six_slots_wf : map_Forall (fun _ arr => ndarray_wf arr) six_slots.
Proof.
  unfold six_slots.
  repeat (apply map_Forall_insert_2; [reflexivity|]). apply map_Forall_empty.
Qed.

Lemma out_is_directory : fs_stat (fs boot) (components "/out") = Some Directory.
Proof. vm_compute. reflexivity. Qed.

Lemma out_bin_is_no_directory : fs_stat (fs boot) (bin_file "/out") <> Some Directory.
Proof. vm_compute. discriminate. Qed.


(** C2 at [/in/broken.h5]: the guarded block raises after [dense/kernel] is
    in the dictionary, and the Extractor returns [None]. *)
Lemma C2_witness :
  stat_path (fs boot) "/in/broken.h5" = Some (ContainerFile container_broken)
  /\ (exists partial w1,
        try_block container_broken (∅, after_dump "/in/broken.h5" container_broken boot)
        = (Raise TypeError, (partial, w1))
        /\ partial !! "dense/kernel" = Some kernel_4x3
        /\ extract_h5_weights "/in/broken.h5" boot
           = (Ok None, mk_world (fs w1) (console w1 ++ [ErrorExtracting TypeError]))).
Proof.
  assert (Hstat : stat_path (fs boot) "/in/broken.h5"
                  = Some (ContainerFile container_broken))
    by (vm_compute; reflexivity).
  split; [exact Hstat|].
  assert (Hrun : exists partial w1,
             try_block container_broken
               (∅, after_dump "/in/broken.h5" container_broken boot)
             = (Raise TypeError, (partial, w1))
             /\ partial !! "dense/kernel" = Some kernel_4x3)
    by (eexists _, _; split; vm_compute; reflexivity).
  destruct Hrun as (partial & w1 & Hrun & Hpartial).
  exists partial, w1. split; [exact Hrun|]. split; [exact Hpartial|].
  exact (proj1 (C2_guarded_failure_returns_None "/in/broken.h5" boot container_broken Hstat)
           TypeError partial w1 Hrun).
Defined.

(** C3 on a list of two soft failures. *)
Lemma C3_witness :
  fails_softly (fs boot) ("broken", "/in/broken.h5")
  /\ Forall (fails_softly (fs boot)) [("absent", "/in/absent.h5")]
  /\ exists log,
       convert_models keep_bits "/out"
         [("broken", "/in/broken.h5"); ("absent", "/in/absent.h5")] boot
       = (Ok tt, mk_world (fs boot) (console boot ++ log))
       /\ Converting "broken" ∈ log /\ Converting "absent" ∈ log.
Proof.
  assert (H1 : fails_softly (fs boot) ("broken", "/in/broken.h5"))
    by (right; vm_compute; reflexivity).
  assert (H2 : Forall (fails_softly (fs boot)) [("absent", "/in/absent.h5")])
    by (repeat constructor; left; vm_compute; reflexivity).
  split; [exact H1|]. split; [exact H2|].
  destruct (proj2 (C3_soft_failures_do_not_abort keep_bits "/out"
                     ("broken", "/in/broken.h5") [("absent", "/in/absent.h5")] boot H1) H2)
    as (log & Hrun & Hbanners).
  exists log. split; [exact Hrun|]. split.
  - apply (Hbanners ("broken", "/in/broken.h5")). left.
  - apply (Hbanners ("absent", "/in/absent.h5")). right. left.
Defined.

(** C4: the Packer on the missing [/out/m]; the driver on [/in/one.h5], which
    makes [/out/one] first; the Packer over the old file in [/out]. *)
Lemma C4_witness :
  fs_stat (fs boot) (components "/out/m") = None
  /\ (exists e, create_tfjs_weights keep_bits two_slots "/out/m" boot = (Raise e, boot))
  /\ fs_stat (fs boot) (components (os_path_join "/out" "one")) = None
  /\ (exists w',
        convert_model keep_bits "/out" ("one", "/in/one.h5") boot = (Ok tt, w')
        /\ fs_stat (fs w') (components (os_path_join "/out" "one")) = Some Directory
        /\ fs w' !! bin_file (os_path_join "/out" "one")
           = Some (RegularFile (concat (map (slot_bytes keep_bits two_slots)
                                            (written_slots two_slots)))))
  /\ (exists specs w',
        create_tfjs_weights keep_bits two_slots "/out" boot = (Ok specs, w')
        /\ fs w' !! bin_file "/out"
           = Some (RegularFile (concat (map (slot_bytes keep_bits two_slots)
                                            (written_slots two_slots))))).
Proof.
  assert (H1 : fs_stat (fs boot) (components "/out/m") = None)
    by (vm_compute; reflexivity).
  split; [exact H1|]. split; [|split; [vm_compute; reflexivity|split]].
  - exact (proj1 (C4_directory_made_by_driver keep_bits two_slots "/out/m" boot) H1).
  - eapply (proj1 (proj2 (C4_directory_made_by_driver keep_bits two_slots
                            (os_path_join "/out" "one") boot))
              "/out" "one" "/in/one.h5").
    + reflexivity.
    + vm_compute. discriminate.
    + vm_compute. reflexivity.
    + vm_compute. reflexivity.
    + vm_compute. discriminate.
  - apply (proj2 (proj2 (C4_directory_made_by_driver keep_bits two_slots "/out" boot))
             [1; 2; 3; 4; 5]).
    + exact out_is_directory.
    + vm_compute. reflexivity.
Defined.

(** C5 on the WeightSet without [dense_2]. *)
Lemma C5_witness :
  fs_stat (fs boot) (components "/out") = Some Directory
  /\ fs_stat (fs boot) (bin_file "/out") <> Some Directory
  /\ exists specs w',
       create_tfjs_weights keep_bits six_slots "/out" boot = (Ok specs, w')
       /\ map name specs = [ "dense/kernel"; "dense/bias"; "dense_1/kernel";
                             "dense_1/bias"; "dense_3/kernel"; "dense_3/bias" ].
Proof.
  split; [exact out_is_directory|]. split; [exact out_bin_is_no_directory|].
  destruct (C5_fixed_order_absent_slots_skipped keep_bits six_slots "/out" boot
              out_is_directory out_bin_is_no_directory)
    as (specs & w' & Hrun & _ & _ & _ & Hsix).
  exists specs, w'. split; [exact Hrun|].
  apply Hsix; vm_compute; eauto.
Defined.

(** C6 on the example of the specification: 60 bytes, two entries. *)
Lemma C6_witness :
  fs_stat (fs boot) (components "/out") = Some Directory
  /\ fs_stat (fs boot) (bin_file "/out") <> Some Directory
  /\ map_Forall (fun _ arr => ndarray_wf arr) two_slots
  /\ exists specs w' content,
       create_tfjs_weights keep_bits two_slots "/out" boot = (Ok specs, w')
       /\ fs w' !! bin_file "/out" = Some (RegularFile content)
       /\ length content = 60%nat
       /\ specs = [ mk_weight_spec "dense/kernel" [4; 3]%nat "float32";
                    mk_weight_spec "dense/bias" [3]%nat "float32" ].
Proof.
  split; [exact out_is_directory|]. split; [exact out_bin_is_no_directory|].
  split; [exact two_slots_wf|].
  destruct (C6_byte_length_and_manifest keep_bits two_slots "/out" boot
              out_is_directory out_bin_is_no_directory two_slots_wf)
    as (specs & w' & content & Hrun & Hfile & _ & _ & Hexample).
  exists specs, w', content. split; [exact Hrun|]. split; [exact Hfile|].
  apply (Hexample kernel_4x3 bias_3); reflexivity.
Defined.

(** C7 on the two-slot WeightSet: the bias is read back. *)
Lemma C7_witness :
  (forall x, 0 <= keep_bits x < 2 ^ 32)
  /\ fs_stat (fs boot) (components "/out") = Some Directory
  /\ fs_stat (fs boot) (bin_file "/out") <> Some Directory
  /\ map_Forall (fun _ arr => ndarray_wf arr) two_slots
  /\ exists specs w' content,
       create_tfjs_weights keep_bits two_slots "/out" boot = (Ok specs, w')
       /\ fs w' !! bin_file "/out" = Some (RegularFile content)
       /\ ("dense/bias", Some (astype_float32 keep_bits bias_3))
          ∈ read_back content 0 specs.
Proof.
  split; [exact keep_bits_range|].
  split; [exact out_is_directory|]. split; [exact out_bin_is_no_directory|].
  split; [exact two_slots_wf|].
  destruct (C7_read_back_round_trip keep_bits two_slots "/out" boot keep_bits_range
              out_is_directory out_bin_is_no_directory two_slots_wf)
    as (specs & w' & content & Hrun & Hfile & _ & Hevery).
  exists specs, w', content. split; [exact Hrun|]. split; [exact Hfile|].
  apply Hevery; [|reflexivity]. unfold weight_order. repeat constructor.
Defined.

(** C8 at [/in/one.h5]: [dense/kernel] is there, [dense_2/bias] is not. *)
Lemma C8_witness :
  stat_path (fs boot) "/in/one.h5" = Some (ContainerFile container_one_layer)
  /\ h5_node container_one_layer ["layers"] = Some (H5Group [("dense", layer_with_both)])
  /\ (forall l, l ∈ layer_names -> layer_well_kinded container_one_layer l)
  /\ exists weights w',
       extract_h5_weights "/in/one.h5" boot = (Ok (Some weights), w')
       /\ is_Some (weights !! ("dense" +:+ "/kernel"))
       /\ ~ is_Some (weights !! ("dense_2" +:+ "/bias")).
Proof.
  assert (Hstat : stat_path (fs boot) "/in/one.h5"
                  = Some (ContainerFile container_one_layer))
    by (vm_compute; reflexivity).
  assert (Hlayers : h5_node container_one_layer ["layers"]
                    = Some (H5Group [("dense", layer_with_both)]))
    by (vm_compute; reflexivity).
  assert (Hkinds : forall l, l ∈ layer_names -> layer_well_kinded container_one_layer l).
  { intros l Hl. unfold layer_names in Hl.
    repeat (apply elem_of_cons in Hl as [->|Hl]); [| | | |inversion Hl];
      vm_compute; tauto. }
  split; [exact Hstat|]. split; [exact Hlayers|]. split; [exact Hkinds|].
  destruct (C8_keys_match_present_nodes "/in/one.h5" boot container_one_layer _
              Hstat Hlayers) as (_ & Hkeys & Hruns).
  destruct (Hruns Hkinds) as (weights & w' & Hrun).
  destruct (Hkeys weights w' Hrun) as [Hiff _].
  exists weights, w'. split; [exact Hrun|]. split.
  - apply (Hiff "dense"); [unfold layer_names; repeat constructor|]. vm_compute. eauto.
  - intros Hbias. apply (Hiff "dense_2") in Hbias; [|unfold layer_names; repeat constructor].
    vm_compute in Hbias. destruct Hbias as [? Hbias]. discriminate Hbias.
Defined.

(** C9 in two worlds that differ in their console. *)
Lemma C9_witness :
  fs_stat (fs boot) (components "/out") = Some Directory
  /\ fs_stat (fs boot) (bin_file "/out") <> Some Directory
  /\ exists specs content w1' w2',
       create_tfjs_weights keep_bits six_slots "/out" boot = (Ok specs, w1')
       /\ create_tfjs_weights keep_bits six_slots "/out" (mk_world disk [Converting "x"])
          = (Ok specs, w2')
       /\ fs w1' !! bin_file "/out" = Some (RegularFile content)
       /\ fs w2' !! bin_file "/out" = Some (RegularFile content).
Proof.
  split; [exact out_is_directory|]. split; [exact out_bin_is_no_directory|].
  destruct (C9_packer_deterministic keep_bits six_slots "/out" "/out" boot
              (mk_world disk [Converting "x"])
              out_is_directory out_bin_is_no_directory
              out_is_directory out_bin_is_no_directory)
    as (specs & content & w1' & w2' & w1'' & H1 & H2 & H3 & H4 & _).
  exists specs, content, w1', w2'. auto.
Defined.

(** C10 on the empty WeightSet. *)
Lemma C10_witness :
  (forall slot, slot ∈ weight_order -> (∅ : gmap string (ndarray Z)) !! slot = None)
  /\ fs_stat (fs boot) (components "/out") = Some Directory
  /\ fs_stat (fs boot) (bin_file "/out") <> Some Directory
  /\ exists w' content,
       create_tfjs_weights keep_bits ∅ "/out" boot = (Ok [], w')
       /\ fs w' !! bin_file "/out" = Some (RegularFile content)
       /\ length content = 0%nat.
Proof.
  assert (Hnone : forall slot, slot ∈ weight_order ->
                    (∅ : gmap string (ndarray Z)) !! slot = None)
    by (intros slot _; apply lookup_empty).
  split; [exact Hnone|].
  split; [exact out_is_directory|]. split; [exact out_bin_is_no_directory|].
  exact (C10_empty_weightset_gives_empty_file keep_bits ∅ "/out" boot Hnone
           out_is_directory out_bin_is_no_directory).
Defined.

(** * Further properties *)

(** ** The Packer: what it touches, what it prints, what it ignores *)

Section PackerFurther.

Context {scalar : Type}.
Variable float32_bits : scalar -> Z.

Lemma open_wb_cases path (w : world scalar) :
  (exists e, open_wb path w = (Raise e, w))
  \/ open_wb path w
     = (Ok (components path),
        mk_world (<[components path := RegularFile []]> (fs w)) (console w)).
Proof.
  unfold open_wb. destruct (bool_decide (path = "")); [eauto|].
  destruct (fs_stat (fs w) (components path)) as [[| |]|];
    destruct (fs_stat (fs w) (removelast (components path))) as [[| |]|]; eauto.
Qed.

Lemma write_weights_log (weights : gmap string (ndarray scalar)) f order :
  forall specs off (w : world scalar) content,
  fs w !! f = Some (RegularFile content) ->
  write_weights float32_bits weights f order specs off w
  = (Ok (specs ++ map (slot_spec weights) (held_slots weights order),
         (off + sum_list (map (slot_nbytes weights) (held_slots weights order)))%nat),
     mk_world
       (<[f := RegularFile
                 (content ++ concat (map (slot_bytes float32_bits weights)
                                         (held_slots weights order)))]> (fs w))
       (console w ++ written_lines weights (held_slots weights order) off)).
Proof.
  unfold held_slots.
  induction order as [|slot order IH]; intros specs off w content Hf.
  - cbn. unfold ret. rewrite !app_nil_r, Nat.add_0_r.
    rewrite insert_id by exact Hf. now destruct w.
  - cbn [write_weights]. destruct (weights !! slot) as [arr|] eqn:Hslot.
    + rewrite filter_cons_True by (rewrite Hslot; eauto).
      unfold bind at 1. unfold file_write.
      unfold bind at 1. unfold print at 1. cbn [fs console].
      rewrite (alter_lookup_insert _ _ _ _ Hf).
      rewrite (IH _ _ _ (content ++ tobytes (astype_float32 float32_bits arr)))
        by (cbn [fs]; apply lookup_insert_eq).
      cbn [fs console map concat sum_list written_lines].
      rewrite insert_insert_eq.
      unfold slot_spec at 2, slot_bytes at 2, slot_nbytes at 2 4, slot_shape, nbytes,
        ndarray_size.
      rewrite Hslot. cbn [shape astype_float32].
      rewrite <- !app_assoc. cbn [app]. rewrite Nat.add_assoc. reflexivity.
    + rewrite filter_cons_False by (rewrite Hslot; intros [? ?]; discriminate).
      apply IH, Hf.
Qed.

Lemma create_tfjs_weights_cases (weights : gmap string (ndarray scalar)) output_path
    (w : world scalar) :
  (exists e, create_tfjs_weights float32_bits weights output_path w = (Raise e, w))
  \/ create_tfjs_weights float32_bits weights output_path w
     = (Ok (map (slot_spec weights) (written_slots weights)),
        mk_world
          (<[bin_file output_path :=
               RegularFile (concat (map (slot_bytes float32_bits weights)
                                        (written_slots weights)))]> (fs w))
          (console w ++ written_lines weights (written_slots weights) 0
             ++ [CreatedBinary (os_path_join output_path "group1-shard1of1.bin");
                 TotalSize (sum_list (map (slot_nbytes weights)
                                          (written_slots weights)))])).
Proof.
  unfold create_tfjs_weights.
  destruct (open_wb_cases (os_path_join output_path "group1-shard1of1.bin") w)
    as [[e Hopen]|Hopen].
  - left. exists e. unfold bind at 1. now rewrite Hopen.
  - right. unfold bind at 1. rewrite Hopen. fold (bin_file output_path).
    unfold bind at 1.
    rewrite (write_weights_log weights (bin_file output_path) weight_order [] 0%nat _ [])
      by (cbn [fs]; apply lookup_insert_eq).
    cbn [fs console app]. rewrite insert_insert_eq.
    unfold bind, print, ret. cbn [fs console].
    rewrite <- !app_assoc. reflexivity.
Qed.

Lemma create_tfjs_weights_other_paths
    (weights : gmap string (ndarray scalar)) output_path (w w' : world scalar) r :
  create_tfjs_weights float32_bits weights output_path w = (r, w') ->
  forall p, p <> bin_file output_path -> fs w' !! p = fs w !! p.
Proof.
  intros Hrun p Hp.
  destruct (create_tfjs_weights_cases weights output_path w) as [[e He]|Hok];
    rewrite Hrun in *.
  - now injection He as _ ->.
  - injection Hok as _ ->. cbn [fs]. now apply lookup_insert_ne.
Qed.

Lemma create_tfjs_weights_bin
    (weights : gmap string (ndarray scalar)) output_path (w w' : world scalar) r :
  create_tfjs_weights float32_bits weights output_path w = (r, w') ->
  fs w' !! bin_file output_path = fs w !! bin_file output_path
  \/ exists content, fs w' !! bin_file output_path = Some (RegularFile content).
Proof.
  intros Hrun.
  destruct (create_tfjs_weights_cases weights output_path w) as [[e He]|Hok];
    rewrite Hrun in *.
  - injection He as _ ->. now left.
  - injection Hok as _ ->. right. cbn [fs]. rewrite lookup_insert_eq. eauto.
Qed.

(** X4.  The Packer touches one path: every other entry of the file system
    is as before, whatever the outcome; when [open] raises, the Packer raises
    that exception and has changed nothing, console included; when the Packer
    returns, [group1-shard1of1.bin] is a regular file. *)
Theorem packer_touches_one_file
    (weights : gmap string (ndarray scalar)) output_path (w w' : world scalar) r :
  create_tfjs_weights float32_bits weights output_path w = (r, w') ->
  (forall p, p <> bin_file output_path -> fs w' !! p = fs w !! p)
  /\ (forall e,
        fst (open_wb (os_path_join output_path "group1-shard1of1.bin") w) = Raise e ->
        r = Raise e /\ w' = w)
  /\ (forall specs, r = Ok specs ->
      exists content, fs w' !! bin_file output_path = Some (RegularFile content)).
Proof.
  intros Hrun. split; [now apply (create_tfjs_weights_other_paths _ _ _ _ _ Hrun)|]. split.
  - intros e Hopen. revert Hrun. unfold create_tfjs_weights, bind.
    destruct (open_wb_cases (os_path_join output_path "group1-shard1of1.bin") w)
      as [[e' He']|Hok].
    + rewrite He' in *. cbn [fst] in Hopen. injection Hopen as ->.
      now intros [= <- <-].
    + rewrite Hok in Hopen. discriminate.
  - intros specs ->.
    destruct (create_tfjs_weights_cases weights output_path w) as [[e He]|Hok];
      rewrite Hrun in *; [discriminate|].
    injection Hok as _ ->. cbn [fs]. rewrite lookup_insert_eq. eauto.
Qed.

Lemma written_lines_app (weights : gmap string (ndarray scalar)) pre post off :
  written_lines weights (pre ++ post) off
  = written_lines weights pre off
    ++ written_lines weights post (off + sum_list (map (slot_nbytes weights) pre)).
Proof.
  revert off. induction pre as [|slot pre IH]; intros off; cbn [app written_lines map sum_list].
  - now rewrite Nat.add_0_r.
  - rewrite IH. now rewrite Nat.add_assoc.
Qed.

(** X5.  For a WeightSet of well-formed arrays, what the Packer prints is
    exact: one line per written tensor, in write order, then the path of the
    binary and as total size the length of the file; the offset printed for
    a tensor is the number of bytes written before it, and the tensor's bytes
    are what the file holds from that offset on. *)
Theorem packer_reports_offsets
    (weights : gmap string (ndarray scalar)) output_path (w w' : world scalar) specs :
  map_Forall (fun _ arr => ndarray_wf arr) weights ->
  create_tfjs_weights float32_bits weights output_path w = (Ok specs, w') ->
  exists content,
    fs w' !! bin_file output_path = Some (RegularFile content)
    /\ console w'
       = console w ++ written_lines weights (written_slots weights) 0
           ++ [CreatedBinary (os_path_join output_path "group1-shard1of1.bin");
               TotalSize (length content)]
    /\ (forall pre slot post,
          written_slots weights = pre ++ slot :: post ->
          Written slot (slot_shape weights slot)
            (length (concat (map (slot_bytes float32_bits weights) pre))) ∈ console w'
          /\ take (slot_nbytes weights slot)
               (drop (length (concat (map (slot_bytes float32_bits weights) pre))) content)
             = slot_bytes float32_bits weights slot).
Proof.
  intros Hwf Hrun.
  destruct (create_tfjs_weights_cases weights output_path w) as [[e He]|Hok];
    rewrite Hrun in *; [discriminate|].
  injection Hok as -> ->. cbn [fs console]. rewrite lookup_insert_eq.
  eexists. split; [reflexivity|].
  pose proof (written_slots_sound weights) as Hheld.
  rewrite (length_packed float32_bits weights _ Hwf Hheld).
  split; [reflexivity|].
  intros pre slot post Hsplit. rewrite Hsplit in Hheld |- *.
  apply Forall_app in Hheld as [Hpre Hpost].
  apply Forall_cons in Hpost as [Hslot Hpost].
  rewrite (length_packed float32_bits weights pre Hwf Hpre). split.
  - rewrite written_lines_app. cbn [written_lines].
    rewrite !elem_of_app, elem_of_cons. auto.
  - rewrite <- (length_packed float32_bits weights pre Hwf Hpre).
    rewrite map_app, concat_app, drop_app_length. cbn [map concat].
    rewrite <- (length_slot_bytes float32_bits weights slot Hwf Hslot).
    apply take_app_length.
Qed.

Lemma write_weights_agree (weights1 weights2 : gmap string (ndarray scalar)) f order :
  (forall slot, slot ∈ order -> weights1 !! slot = weights2 !! slot) ->
  forall specs off (w : world scalar),
  write_weights float32_bits weights1 f order specs off w
  = write_weights float32_bits weights2 f order specs off w.
Proof.
  induction order as [|slot order IH]; intros Hagree specs off w; [reflexivity|].
  cbn [write_weights]. rewrite <- (Hagree slot) by left.
  assert (Hrest : forall s, s ∈ order -> weights1 !! s = weights2 !! s)
    by (intros s Hs; apply Hagree; now right).
  destruct (weights1 !! slot) as [arr|]; [|now apply IH].
  unfold bind. destruct (file_write f _ w) as [[[]|e] w1]; [|reflexivity].
  destruct (print _ w1) as [[[]|e] w2]; [|reflexivity]. now apply IH.
Qed.

(** X6.  The Packer reads the eight slots and nothing else: two WeightSets
    that agree on the slots of [weight_order] give the same run (result,
    file system, console), so a tensor under any other name is dropped
    without a word. *)
Theorem packer_reads_only_the_eight_slots
    (weights1 weights2 : gmap string (ndarray scalar)) output_path (w : world scalar) :
  (forall slot, slot ∈ weight_order -> weights1 !! slot = weights2 !! slot) ->
  create_tfjs_weights float32_bits weights1 output_path w
  = create_tfjs_weights float32_bits weights2 output_path w.
Proof.
  intros Hagree. unfold create_tfjs_weights, bind.
  destruct (open_wb _ w) as [[f|e] w1]; [|reflexivity].
  now rewrite (write_weights_agree weights1 weights2 f weight_order Hagree).
Qed.

End PackerFurther.

(** ** The Extractor: what it reads, what it returns *)

Section ExtractorFurther.

Context {scalar : Type}.

(** X1.  [extract_h5_weights] only reads: whatever it returns or raises, the
    file system is as before and the console has only grown; and what it
    returns depends on the file system alone, not on the console. *)
Theorem extractor_is_read_only h5_file_path (w : world scalar) :
  fs (snd (extract_h5_weights h5_file_path w)) = fs w
  /\ (exists log, console (snd (extract_h5_weights h5_file_path w)) = console w ++ log)
  /\ (forall w2 : world scalar, fs w2 = fs w ->
      fst (extract_h5_weights h5_file_path w2) = fst (extract_h5_weights h5_file_path w)).
Proof.
  destruct (extract_h5_weights_outcome h5_file_path w) as (Hr & Hfs & Hlog).
  split; [exact Hfs|]. split; [exact Hlog|].
  intros w2 Hw2. destruct (extract_h5_weights_outcome h5_file_path w2) as (Hr2 & _ & _).
  now rewrite Hr, Hr2, Hw2.
Qed.

(** X2.  A container without a top-level [layers] member is an extraction
    failure: the lookup [f['layers']] raises [KeyError] inside the [try], the
    Extractor prints the error after the structure dump and returns [None];
    the file system is as before. *)
Theorem missing_layers_group_gives_None h5_file_path (w : world scalar) members :
  stat_path (fs w) h5_file_path = Some (ContainerFile (H5Group members)) ->
  lookup_member "layers" members = None ->
  extract_h5_weights h5_file_path w
  = (Ok None,
     mk_world (fs w)
       (console w ++ [StructureHeader h5_file_path]
          ++ structure_lines "" (H5Group members) ++ [ErrorExtracting KeyError])).
Proof.
  intros Hstat Hlayers. rewrite (extract_h5_weights_opened _ _ _ Hstat).
  unfold try_block, bind, lift, h5_getitem. rewrite Hlayers.
  unfold after_dump. cbn [fs console]. now rewrite <- !app_assoc.
Qed.

Lemma lookup_insert_if_some_eq key (o : option (ndarray scalar)) weights :
  insert_if_some key o weights !! key
  = match o with Some arr => Some arr | None => weights !! key end.
Proof. destruct o; [apply lookup_insert_eq|reflexivity]. Qed.

Lemma lookup_insert_if_some_ne key (o : option (ndarray scalar)) weights k :
  k <> key -> insert_if_some key o weights !! k = weights !! k.
Proof. intros Hne. destruct o; [now apply lookup_insert_ne|reflexivity]. Qed.

Ltac key_differs := let H := fresh in intros H; vm_compute in H; discriminate H.

Ltac lookup_slot :=
  repeat first [ rewrite lookup_insert_if_some_ne by key_differs
               | rewrite lookup_insert_if_some_eq
               | rewrite lookup_empty ];
  repeat match goal with
         | |- context [match ?o with Some _ => _ | None => _ end] => destruct o
         end;
  reflexivity.

Lemma lookup_complete_weights (root layers_root : h5obj scalar) l :
  h5_node root ["layers"] = Some layers_root ->
  l ∈ layer_names ->
  complete_weights root !! (l +:+ "/kernel")
  = dataset_array (h5_node layers_root [l; "vars"; "0"])
  /\ complete_weights root !! (l +:+ "/bias")
     = dataset_array (h5_node layers_root [l; "vars"; "1"]).
Proof.
  intros Hlayers Hl. unfold complete_weights. rewrite Hlayers.
  unfold layer_names in *. cbn [fold_left]. unfold layer_slots.
  repeat (apply elem_of_cons in Hl as [->|Hl]); [| | | |inversion Hl];
    split; lookup_slot.
Qed.

(** X3.  In a WeightSet the Extractor returns, the tensor under
    [<layer>/kernel] is the array read from [layers/<layer>/vars/0] and the
    one under [<layer>/bias] the array read from [layers/<layer>/vars/1], for
    each of the four layers; there is no tensor where that dataset is
    absent. *)
Theorem extracted_tensors_are_the_datasets
    h5_file_path (w w' : world scalar) (root : h5obj scalar) weights :
  stat_path (fs w) h5_file_path = Some (ContainerFile root) ->
  extract_h5_weights h5_file_path w = (Ok (Some weights), w') ->
  forall l, l ∈ layer_names ->
    weights !! (l +:+ "/kernel")
    = dataset_array (h5_node root ["layers"; l; "vars"; "0"])
    /\ weights !! (l +:+ "/bias")
       = dataset_array (h5_node root ["layers"; l; "vars"; "1"]).
Proof.
  intros Hstat. rewrite (extract_h5_weights_opened _ _ root Hstat).
  destruct (try_block root _) as [[[]|e] [ws w1]] eqn:Hrun; [|discriminate].
  intros [= -> ->] l Hl.
  apply try_block_ok in Hrun as (lr & Hlr & -> & _).
  rewrite !(h5_node_below root lr) by exact Hlr.
  now apply lookup_complete_weights.
Qed.

Lemma world_blind_ret {A} (a : A) :
  world_blind (ret a : M (gmap string (ndarray scalar) * world scalar) A).
Proof. intros s1 s2 H. cbn. auto. Qed.

Lemma world_blind_lift {A} (r : result A) :
  world_blind (lift r : M (gmap string (ndarray scalar) * world scalar) A).
Proof. intros s1 s2 H. cbn. auto. Qed.

Lemma world_blind_store key arr : world_blind (scalar := scalar) (store key arr).
Proof. intros [ws1 w1] [ws2 w2] H. cbn in *. now subst. Qed.

Lemma world_blind_print d : world_blind (scalar := scalar) (print_in_try d).
Proof. intros [ws1 w1] [ws2 w2] H. cbn in *. now subst. Qed.

Lemma world_blind_bind {A B}
    (c : M (gmap string (ndarray scalar) * world scalar) A)
    (k : A -> M (gmap string (ndarray scalar) * world scalar) B) :
  world_blind c -> (forall a, world_blind (k a)) -> world_blind (bind c k).
Proof.
  intros Hc Hk s1 s2 Hs. unfold bind. destruct (Hc s1 s2 Hs) as [Hr Hs'].
  destruct (c s1) as [[a1|e1] s1'], (c s2) as [[a2|e2] s2']; cbn [fst snd] in *;
    try discriminate.
  - injection Hr as ->. now apply Hk.
  - split; [congruence|exact Hs'].
Qed.

Lemma world_blind_if {A} (b : bool)
    (c1 c2 : M (gmap string (ndarray scalar) * world scalar) A) :
  world_blind c1 -> world_blind c2 -> world_blind (if b then c1 else c2).
Proof. now destruct b. Qed.

Ltac world_blind_step :=
  first [ apply world_blind_ret | apply world_blind_lift | apply world_blind_store
        | apply world_blind_print
        | apply world_blind_bind; [|intros ?]
        | apply world_blind_if ].

Lemma world_blind_try_block (f : h5obj scalar) : world_blind (try_block f).
Proof.
  unfold try_block. apply world_blind_bind; [apply world_blind_lift|].
  intros layers_root. induction layer_names as [|l names IH]; cbn [extract_layers].
  - apply world_blind_ret.
  - apply world_blind_bind; [|intros _; exact IH].
    unfold extract_layer. repeat world_blind_step.
Qed.

Lemma extraction_outcome_stat (files1 files2 : gmap (list string) (fsentry scalar)) path :
  stat_path files1 path = stat_path files2 path ->
  extraction_outcome files1 path = extraction_outcome files2 path.
Proof.
  intros Hstat. unfold extraction_outcome.
  destruct (stat_path files2 path) as [[| |f]|] eqn:H2.
  1, 2, 4: unfold extract_h5_weights, bind, h5py_File; cbn [fs]; now rewrite Hstat, H2.
  rewrite !(extract_h5_weights_opened _ _ f) by (cbn [fs]; congruence).
  destruct (world_blind_try_block f
              (∅, after_dump path f (mk_world files1 []))
              (∅, after_dump path f (mk_world files2 []))) as [Hr Hws];
    [reflexivity|].
  destruct (try_block f (∅, after_dump path f (mk_world files1 []))) as [[[]|e] [ws1 w1]],
    (try_block f (∅, after_dump path f (mk_world files2 []))) as [[[]|e'] [ws2 w2]];
    cbn in *; try discriminate; subst; reflexivity.
Qed.

Lemma extraction_outcome_complete (files : gmap (list string) (fsentry scalar)) path weights :
  extraction_outcome files path = Ok (Some weights) ->
  exists root, stat_path files path = Some (ContainerFile root)
               /\ weights = complete_weights root.
Proof.
  unfold extraction_outcome.
  destruct (stat_path files path) as [[| |f]|] eqn:Hstat.
  1, 2, 4: unfold extract_h5_weights, bind, h5py_File; cbn [fs]; rewrite Hstat;
    discriminate.
  rewrite (extract_h5_weights_opened _ _ f) by exact Hstat.
  destruct (try_block f _) as [[[]|e] [ws w1]] eqn:Hrun; [|discriminate].
  cbn [fst]. intros [= ->]. exists f. split; [reflexivity|].
  now apply try_block_ok in Hrun as (_ & _ & -> & _).
Qed.

End ExtractorFurther.

(** ** The driver: what a job leaves behind *)

Section DriverFurther.

Context {scalar : Type}.
Variable float32_bits : scalar -> Z.

Lemma makedirs_from_keeps todo :
  forall walked (files files' : gmap (list string) (fsentry scalar)) r,
  makedirs_from walked todo files = (r, files') ->
  forall p e, files !! p = Some e -> files' !! p = Some e.
Proof.
  induction todo as [|c todo IH]; intros walked files files' r Hrun p e Hp;
    cbn [makedirs_from] in Hrun.
  - now injection Hrun as _ <-.
  - destruct (files !! (walked ++ [c])) as [[| |]|] eqn:Hhere.
    + eapply IH; eauto.
    + now injection Hrun as _ <-.
    + now injection Hrun as _ <-.
    + eapply IH; [exact Hrun|]. rewrite lookup_insert_ne; [exact Hp|congruence].
Qed.

Lemma makedirs_from_made todo :
  forall walked (files files' : gmap (list string) (fsentry scalar)),
  makedirs_from walked todo files = (Ok tt, files') ->
  forall pre suf, todo = pre ++ suf -> pre <> [] ->
  files' !! (walked ++ pre) = Some Directory.
Proof.
  induction todo as [|c todo IH]; intros walked files files' Hrun pre suf Hsplit Hpre.
  - destruct pre; [congruence|discriminate].
  - destruct pre as [|c' pre]; [congruence|]. injection Hsplit as <- ->.
    cbn [makedirs_from] in Hrun.
    assert (Hstep : forall files0,
               files0 !! (walked ++ [c]) = Some Directory ->
               makedirs_from (walked ++ [c]) (pre ++ suf) files0 = (Ok tt, files') ->
               files' !! (walked ++ c :: pre) = Some Directory).
    { intros files0 Hhere Hrest. destruct pre as [|c' pre].
      - eapply makedirs_from_keeps; eauto.
      - replace (walked ++ c :: c' :: pre) with ((walked ++ [c]) ++ c' :: pre)
          by now rewrite <- app_assoc.
        eapply IH; [exact Hrest|reflexivity|discriminate]. }
    destruct (files !! (walked ++ [c])) as [[| |]|] eqn:Hhere; try discriminate.
    + eapply Hstep; eauto.
    + eapply Hstep; [|exact Hrun]. apply lookup_insert_eq.
Qed.

Lemma makedirs_from_again todo :
  forall walked (files : gmap (list string) (fsentry scalar)),
  (forall pre suf, todo = pre ++ suf -> pre <> [] ->
     files !! (walked ++ pre) = Some Directory) ->
  makedirs_from walked todo files = (Ok tt, files).
Proof.
  induction todo as [|c todo IH]; intros walked files Hdirs; [reflexivity|].
  cbn [makedirs_from]. rewrite (Hdirs [c] todo) by (reflexivity || discriminate).
  apply IH. intros pre suf -> Hpre. rewrite <- app_assoc.
  apply (Hdirs (c :: pre) suf); [reflexivity|discriminate].
Qed.

Lemma os_makedirs_keeps path (w w' : world scalar) r :
  os_makedirs path w = (r, w') ->
  (forall p e, fs w !! p = Some e -> fs w' !! p = Some e).
Proof.
  unfold os_makedirs. destruct (bool_decide (path = "")); [now intros [= _ <-]|].
  destruct (makedirs_from [] (components path) (fs w)) as [r' files'] eqn:Hrun.
  intros [= _ <-] p e Hp. cbn [fs]. eapply makedirs_from_keeps; eauto.
Qed.

Lemma os_makedirs_made path (w w' : world scalar) :
  os_makedirs path w = (Ok tt, w') ->
  path <> "" /\ directories_exist (fs w') (components path).
Proof.
  unfold os_makedirs. destruct (bool_decide (path = "")) eqn:He; [discriminate|].
  apply bool_decide_eq_false in He.
  destruct (makedirs_from [] (components path) (fs w)) as [r' files'] eqn:Hrun.
  intros [= -> <-]. split; [exact He|]. intros pre suf Hsplit Hpre. cbn [fs].
  apply (makedirs_from_made _ [] _ _ Hrun pre suf Hsplit Hpre).
Qed.

Lemma os_makedirs_again path (w : world scalar) :
  path <> "" -> directories_exist (fs w) (components path) ->
  os_makedirs path w = (Ok tt, w).
Proof.
  intros Hne Hdirs. unfold os_makedirs.
  rewrite bool_decide_eq_false_2 by exact Hne.
  rewrite (makedirs_from_again _ [] (fs w)) by exact Hdirs. now destruct w.
Qed.

(** The driver's loop body, one branch per way a job can go. *)
Lemma convert_model_run base model_name h5_path (w : world scalar) :
  convert_model float32_bits base (model_name, h5_path) w
  = let w0 := mk_world (fs w) (console w ++ [Converting model_name]) in
    match stat_path (fs w) h5_path with
    | None => (Ok tt, mk_world (fs w) (console w0 ++ [WarningNotFound h5_path]))
    | Some _ =>
        match extract_h5_weights h5_path w0 with
        | (Raise e, w1) => (Raise e, w1)
        | (Ok None, w1) =>
            (Ok tt, mk_world (fs w1) (console w1 ++ [FailedToExtract h5_path]))
        | (Ok (Some weights), w1) =>
            match os_makedirs (os_path_join base model_name) w1 with
            | (Raise e, w2) => (Raise e, w2)
            | (Ok _, w2) =>
                match create_tfjs_weights float32_bits weights
                        (os_path_join base model_name) w2 with
                | (Raise e, w3) => (Raise e, w3)
                | (Ok _, w3) =>
                    (Ok tt,
                     mk_world (fs w3)
                       (console w3 ++ [SuccessfullyConverted model_name;
                                       WeightsSavedTo (os_path_join base model_name)]))
                end
            end
        end
    end.
Proof.
  unfold convert_model, bind, print at 1, os_path_exists. cbn [fs console].
  destruct (stat_path (fs w) h5_path) as [entry|]; cbn [negb]; [|reflexivity].
  destruct (extract_h5_weights h5_path _) as [[[weights|]|e] w1]; try reflexivity.
  destruct (os_makedirs _ w1) as [[[]|e] w2]; [|reflexivity].
  destruct (create_tfjs_weights _ _ _ w2) as [[specs|e] w3]; [|reflexivity].
  unfold print. cbn [fs console]. now rewrite <- app_assoc.
Qed.

Lemma kept_outside_refl (bins : list (list string)) (files : gmap (list string) (fsentry scalar)) :
  kept_outside bins files files.
Proof. intros p e Hp. now left. Qed.

Lemma kept_outside_trans (bins : list (list string)) (files1 files2 files3 : gmap (list string) (fsentry scalar)) :
  kept_outside bins files1 files2 -> kept_outside bins files2 files3 ->
  kept_outside bins files1 files3.
Proof.
  intros H12 H23 p e Hp. destruct (H12 p e Hp) as [H2|(Hbin & content & H2)].
  - apply (H23 p e H2).
  - destruct (H23 p _ H2) as [H3|(_ & content' & H3)]; right; eauto.
Qed.

Lemma kept_outside_more (bins bins' : list (list string)) (files files' : gmap (list string) (fsentry scalar)) :
  (forall p, p ∈ bins -> p ∈ bins') ->
  kept_outside bins files files' -> kept_outside bins' files files'.
Proof.
  intros Hsub Hkept p e Hp. destruct (Hkept p e Hp) as [?|(Hbin & ?)]; [now left|].
  right. auto.
Qed.

Lemma convert_model_keeps base model_name h5_path (w : world scalar) :
  kept_outside [bin_file (os_path_join base model_name)] (fs w)
    (fs (snd (convert_model float32_bits base (model_name, h5_path) w))).
Proof.
  rewrite convert_model_run. cbv zeta.
  destruct (stat_path (fs w) h5_path) as [entry|]; [|apply kept_outside_refl].
  set (w0 := mk_world (fs w) (console w ++ [Converting model_name])).
  destruct (extract_h5_weights_outcome h5_path w0) as (_ & Hfs & _).
  change (fs w0) with (fs w) in Hfs.
  destruct (extract_h5_weights h5_path w0) as [[[weights|]|e] w1]; cbn [snd fs] in *;
    try (rewrite Hfs; apply kept_outside_refl).
  destruct (os_makedirs (os_path_join base model_name) w1) as [r2 w2] eqn:Hmk.
  pose proof (os_makedirs_keeps _ _ _ _ Hmk) as Hkeep. rewrite Hfs in Hkeep.
  assert (H02 : kept_outside [bin_file (os_path_join base model_name)] (fs w) (fs w2))
    by (intros p e Hp; left; auto).
  destruct r2 as [[]|e]; [|exact H02].
  destruct (create_tfjs_weights float32_bits weights (os_path_join base model_name) w2)
    as [r3 w3] eqn:Hpack.
  assert (H23 : kept_outside [bin_file (os_path_join base model_name)] (fs w2) (fs w3)).
  { intros p e Hp. destruct (decide (p = bin_file (os_path_join base model_name))) as [->|Hne].
    - destruct (create_tfjs_weights_bin float32_bits _ _ _ _ _ Hpack) as [Hsame|Hfile].
      + left. now rewrite Hsame.
      + right. split; [left|exact Hfile].
    - left. now rewrite (create_tfjs_weights_other_paths float32_bits _ _ _ _ _ Hpack). }
  destruct r3 as [specs|e3]; cbn [snd fs]; eapply kept_outside_trans; eauto.
Qed.

Lemma convert_models_keeps base jobs :
  forall w : world scalar,
  kept_outside (bin_files base jobs) (fs w)
    (fs (snd (convert_models float32_bits base jobs w))).
Proof.
  induction jobs as [|[model_name h5_path] jobs IH]; intros w; cbn [convert_models].
  - apply kept_outside_refl.
  - unfold bind.
    pose proof (convert_model_keeps base model_name h5_path w) as H1.
    destruct (convert_model float32_bits base (model_name, h5_path) w) as [[[]|e] w1];
      cbn [snd] in *.
    + eapply kept_outside_trans.
      * eapply kept_outside_more; [|exact H1]. intros p Hp.
        apply list_elem_of_singleton in Hp as ->. left.
      * eapply kept_outside_more; [|apply IH]. intros p Hp. now right.
    + eapply kept_outside_more; [|exact H1]. intros p Hp.
      apply list_elem_of_singleton in Hp as ->. left.
Qed.

(** X8.  The driver never removes or alters an existing entry other than the
    binary files of its jobs: whatever the jobs and however the run ends
    (an exception included), an entry of the file system is still there
    unchanged, or it is one of the jobs' [group1-shard1of1.bin] and is now a
    regular file.  For [main] these are the three binaries under
    [base_path]. *)
Theorem driver_keeps_existing_entries base jobs (w : world scalar) p e :
  fs w !! p = Some e ->
  (fs (snd (convert_models float32_bits base jobs w)) !! p = Some e
   \/ (p ∈ bin_files base jobs
       /\ exists content,
            fs (snd (convert_models float32_bits base jobs w)) !! p
            = Some (RegularFile content)))
  /\ (p ∉ bin_files base_path models ->
      fs (snd (main float32_bits w)) !! p = Some e).
Proof.
  intros Hp. split; [now apply convert_models_keeps|].
  intros Hout. destruct (convert_models_keeps base_path models w p e Hp) as [H|[Hin _]];
    [exact H|contradiction].
Qed.

End DriverFurther.

(** ** The driver: a converted job, end to end *)

Section DriverEndToEnd.

Context {scalar : Type}.
Variable float32_bits : scalar -> Z.

Lemma stat_path_container (files : gmap (list string) (fsentry scalar)) path root :
  stat_path files path = Some (ContainerFile root) ->
  path <> "" /\ components path <> []
  /\ files !! components path = Some (ContainerFile root).
Proof.
  unfold stat_path. destruct (bool_decide (path = "")) eqn:He; [discriminate|].
  apply bool_decide_eq_false in He. unfold fs_stat.
  destruct (components path) as [|c cs]; [discriminate|]. auto.
Qed.

Lemma stat_path_lookup (files : gmap (list string) (fsentry scalar)) path e :
  path <> "" -> components path <> [] -> files !! components path = Some e ->
  stat_path files path = Some e.
Proof.
  intros He Hcs Hfile. unfold stat_path, fs_stat.
  rewrite bool_decide_eq_false_2 by exact He.
  now destruct (components path).
Qed.

Lemma fs_stat_directories_exist (files : gmap (list string) (fsentry scalar)) cs :
  directories_exist files cs -> fs_stat files cs = Some Directory.
Proof.
  intros Hdirs. destruct cs as [|c cs]; [reflexivity|]. cbn [fs_stat].
  apply (Hdirs (c :: cs) []); [now rewrite app_nil_r|discriminate].
Qed.

Lemma directories_exist_insert_bin (files : gmap (list string) (fsentry scalar))
    output_path e :
  directories_exist files (components output_path) ->
  directories_exist (<[bin_file output_path := e]> files) (components output_path).
Proof.
  intros Hdirs pre suf Hsplit Hpre. rewrite lookup_insert_ne; [now apply (Hdirs pre suf)|].
  unfold bin_file. rewrite components_join_bin, Hsplit. intros H.
  apply (f_equal length) in H. rewrite !length_app in H. cbn in H. lia.
Qed.

Lemma fs_stat_bin_file (files : gmap (list string) (fsentry scalar)) output_path :
  fs_stat files (bin_file output_path) = files !! bin_file output_path.
Proof.
  pose proof (bin_file_nonempty output_path). now destruct (bin_file output_path).
Qed.

(** A job that converts: the Extractor gave a WeightSet, the directory was
    made, and the Packer left its file in it. *)
Lemma convert_model_converted base model_name h5_path (w w1 : world scalar) weights :
  extraction_outcome (fs w) h5_path = Ok (Some weights) ->
  convert_model float32_bits base (model_name, h5_path) w = (Ok tt, w1) ->
  exists we wm,
    fs we = fs w
    /\ os_makedirs (os_path_join base model_name) we = (Ok tt, wm)
    /\ fs w1 = <[bin_file (os_path_join base model_name) :=
                   RegularFile (concat (map (slot_bytes float32_bits weights)
                                            (written_slots weights)))]> (fs wm).
Proof.
  intros Hout Hrun.
  destruct (extraction_outcome_complete _ _ _ Hout) as (root & Hstat & _).
  rewrite convert_model_run in Hrun. cbv zeta in Hrun. rewrite Hstat in Hrun.
  set (w0 := mk_world (fs w) (console w ++ [Converting model_name])) in *.
  destruct (extract_h5_weights_outcome h5_path w0) as (Hr & Hfs & _).
  change (fs w0) with (fs w) in Hr, Hfs. rewrite Hout in Hr.
  destruct (extract_h5_weights h5_path w0) as [re we]. cbn [fst snd] in Hr, Hfs. subst re.
  destruct (os_makedirs (os_path_join base model_name) we) as [[[]|e] wm] eqn:Hmk;
    [|discriminate].
  exists we, wm. split; [exact Hfs|]. split; [exact Hmk|].
  destruct (create_tfjs_weights_cases float32_bits weights (os_path_join base model_name) wm)
    as [[e He]|Hok].
  - rewrite He in Hrun. discriminate.
  - rewrite Hok in Hrun. injection Hrun as <-. reflexivity.
Qed.

(** X9.  Converting again changes nothing: when a job has converted and its
    source is not the binary it writes, running the same job on the
    resulting world converts again and leaves the file system exactly as the
    first run left it. *)
Theorem converting_again_changes_nothing
    base model_name h5_path (w w1 : world scalar) weights :
  components h5_path <> bin_file (os_path_join base model_name) ->
  extraction_outcome (fs w) h5_path = Ok (Some weights) ->
  convert_model float32_bits base (model_name, h5_path) w = (Ok tt, w1) ->
  exists w2,
    convert_model float32_bits base (model_name, h5_path) w1 = (Ok tt, w2)
    /\ fs w2 = fs w1.
Proof.
  intros Hne Hout Hrun.
  destruct (convert_model_converted _ _ _ _ _ _ Hout Hrun) as (we & wm & Hfs & Hmk & Hw1).
  destruct (extraction_outcome_complete _ _ _ Hout) as (root & Hstat & _).
  destruct (stat_path_container _ _ _ Hstat) as (Hpath & Hcs & Hfile).
  destruct (os_makedirs_made _ _ _ Hmk) as [Hout_path Hdirs].
  assert (Hstat1 : stat_path (fs w1) h5_path = Some (ContainerFile root)).
  { apply stat_path_lookup; [exact Hpath|exact Hcs|].
    rewrite Hw1, lookup_insert_ne by congruence.
    apply (os_makedirs_keeps _ _ _ _ Hmk). now rewrite Hfs. }
  assert (Hout1 : extraction_outcome (fs w1) h5_path = Ok (Some weights))
    by (rewrite <- Hout; apply extraction_outcome_stat; congruence).
  assert (Hdirs1 : directories_exist (fs w1) (components (os_path_join base model_name)))
    by (rewrite Hw1; now apply directories_exist_insert_bin).
  rewrite convert_model_run. cbv zeta. rewrite Hstat1.
  set (w0 := mk_world (fs w1) (console w1 ++ [Converting model_name])).
  destruct (extract_h5_weights_outcome h5_path w0) as (Hr & Hfs2 & _).
  change (fs w0) with (fs w1) in Hr, Hfs2. rewrite Hout1 in Hr.
  destruct (extract_h5_weights h5_path w0) as [re we2]. cbn [fst snd] in Hr, Hfs2. subst re.
  rewrite os_makedirs_again by (exact Hout_path || now rewrite Hfs2).
  destruct (create_tfjs_weights_run float32_bits weights (os_path_join base model_name) we2)
    as [log Hpack].
  { rewrite Hfs2. now apply fs_stat_directories_exist. }
  { rewrite Hfs2, fs_stat_bin_file, Hw1, lookup_insert_eq. discriminate. }
  rewrite Hpack. eexists. split; [reflexivity|]. cbn [fs].
  rewrite Hfs2, Hw1. apply insert_insert_eq.
Qed.

Lemma extraction_outcome_well_kinded (files : gmap (list string) (fsentry scalar))
    h5_path (root : h5obj scalar) members :
  stat_path files h5_path = Some (ContainerFile root) ->
  h5_node root ["layers"] = Some (H5Group members) ->
  (forall l, l ∈ layer_names -> layer_well_kinded root l) ->
  extraction_outcome files h5_path = Ok (Some (complete_weights root)).
Proof.
  intros Hstat Hlayers Hkinds. unfold extraction_outcome.
  rewrite (extract_h5_weights_opened _ _ root) by exact Hstat.
  destruct (try_block root _) as [r [ws w1]] eqn:Hrun.
  assert (Hok : r = Ok tt).
  { revert Hrun. unfold try_block, bind, lift. rewrite h5_getitem_node, Hlayers.
    destruct (extract_layers_succeeds (H5Group members) layer_names) with
      (s := (∅ : gmap string (ndarray scalar),
             after_dump h5_path root (mk_world files []))) as [s' Hs'].
    - eauto.
    - apply Forall_forall. intros l Hl. destruct (Hkinds l Hl) as (Hg & Hv & H0 & H1).
      rewrite !(h5_node_below root (H5Group members)) in Hg, Hv, H0, H1 by exact Hlayers.
      auto.
    - rewrite Hs'. congruence. }
  subst r. cbn [fst]. now apply try_block_ok in Hrun as (_ & _ & -> & _).
Qed.

Lemma concat_held_slots (weights : gmap string (ndarray scalar)) order :
  concat (map (slot_bytes float32_bits weights) (held_slots weights order))
  = concat (map (slot_bytes float32_bits weights) order).
Proof.
  unfold held_slots. induction order as [|slot order IH]; [reflexivity|].
  destruct (weights !! slot) as [arr|] eqn:Hslot.
  - rewrite filter_cons_True by (rewrite Hslot; eauto). cbn [map concat]. now rewrite IH.
  - rewrite filter_cons_False by (rewrite Hslot; intros [? ?]; discriminate).
    cbn [map concat]. rewrite IH. unfold slot_bytes at 2. now rewrite Hslot.
Qed.

Lemma packed_complete_weights (root layers_root : h5obj scalar) :
  h5_node root ["layers"] = Some layers_root ->
  concat (map (slot_bytes float32_bits (complete_weights root))
              (written_slots (complete_weights root)))
  = concat (map (fun l => node_bytes float32_bits root l "0"
                          ++ node_bytes float32_bits root l "1") layer_names).
Proof.
  intros Hlayers. unfold written_slots. rewrite concat_held_slots.
  change weight_order
    with (concat (map (fun l => [l +:+ "/kernel"; l +:+ "/bias"]) layer_names)).
  assert (Hall : forall l, l ∈ layer_names -> l ∈ layer_names) by auto.
  revert Hall. generalize layer_names at 1 3 4. intros names Hnames.
  induction names as [|l names IH]; [reflexivity|].
  cbn [map concat app]. rewrite IH by (intros l' Hl'; apply Hnames; now right).
  rewrite app_assoc. f_equal.
  destruct (lookup_complete_weights root layers_root l Hlayers) as [Hk Hb];
    [apply Hnames; left|].
  unfold slot_bytes, node_bytes.
  rewrite !(h5_node_below root layers_root) by exact Hlayers.
  now rewrite Hk, Hb.
Qed.

(** X7.  Extractor and Packer composed: when a job on a well-kinded container
    with a [layers] group returns normally, the file it leaves in the
    per-model directory is, for the four layers in order, the float32 bytes
    of the kernel dataset followed by those of the bias dataset, an absent
    dataset contributing nothing. *)
Theorem converted_file_holds_the_datasets
    base model_name h5_path (w w' : world scalar) (root : h5obj scalar) members :
  stat_path (fs w) h5_path = Some (ContainerFile root) ->
  h5_node root ["layers"] = Some (H5Group members) ->
  (forall l, l ∈ layer_names -> layer_well_kinded root l) ->
  convert_model float32_bits base (model_name, h5_path) w = (Ok tt, w') ->
  fs w' !! bin_file (os_path_join base model_name)
  = Some (RegularFile
            (concat (map (fun l => node_bytes float32_bits root l "0"
                                   ++ node_bytes float32_bits root l "1")
                         layer_names))).
Proof.
  intros Hstat Hlayers Hkinds Hrun.
  pose proof (extraction_outcome_well_kinded _ _ _ _ Hstat Hlayers Hkinds) as Hout.
  destruct (convert_model_converted _ _ _ _ _ _ Hout Hrun) as (we & wm & _ & _ & Hw').
  rewrite Hw', lookup_insert_eq.
  now rewrite (packed_complete_weights root _ Hlayers).
Qed.

Lemma convert_models_all_missing base jobs :
  forall w : world scalar,
  (forall job, job ∈ jobs -> stat_path (fs w) (snd job) = None) ->
  convert_models float32_bits base jobs w
  = (Ok tt,
     mk_world (fs w)
       (console w
          ++ concat (map (fun job => [Converting (fst job); WarningNotFound (snd job)])
                         jobs))).
Proof.
  induction jobs as [|[model_name h5_path] jobs IH]; intros w Hmissing.
  - cbn. unfold ret. rewrite app_nil_r. now destruct w.
  - cbn [convert_models]. unfold bind.
    rewrite convert_model_missing by (apply (Hmissing (model_name, h5_path)); left).
    rewrite IH by (intros job Hjob; cbn [fs]; apply Hmissing; now right).
    cbn [fs console map concat fst snd app]. now rewrite <- app_assoc.
Qed.

(** X10.  When none of the three compiled-in sources exists, [main] returns
    normally, changes nothing in the file system, and prints for each model,
    in list order, its banner and the warning that the file was not found. *)
Theorem main_without_sources (w : world scalar) :
  (forall job, job ∈ models -> stat_path (fs w) (snd job) = None) ->
  main float32_bits w
  = (Ok tt,
     mk_world (fs w)
       (console w
          ++ concat (map (fun job => [Converting (fst job); WarningNotFound (snd job)])
                         models))).
Proof. apply convert_models_all_missing. Qed.

End DriverEndToEnd.

(** ** The structure dump, a source that is no container, what gets created *)

Section DumpAndCreation.

Context {scalar : Type}.
Variable float32_bits : scalar -> Z.

Lemma structure_lines_member (prefix n : string) (child : h5obj scalar) members :
  lookup_member n members = Some child ->
  StructureLine (child_name prefix n) (node_shape child)
    ∈ structure_lines prefix (H5Group members)
  /\ (forall d, d ∈ structure_lines (child_name prefix n) child ->
                d ∈ structure_lines prefix (H5Group members)).
Proof.
  cbn [structure_lines].
  induction members as [|[n' child'] members IH]; cbn [lookup_member]; [discriminate|].
  destruct (bool_decide (n' = n)) eqn:Hn.
  - apply bool_decide_eq_true in Hn. subst n'. intros [= ->]. split.
    + left.
    + intros d Hd. right. apply elem_of_app. now left.
  - intros Hrest. destruct (IH Hrest) as [Hline Hbelow]. split.
    + right. apply elem_of_app. now right.
    + intros d Hd. right. apply elem_of_app. right. now apply Hbelow.
Qed.

(** X11.  The structure dump lists every node: for each node at a non-empty
    path below the root of an opened container, the console has, after the
    Extractor, a line with the member names joined by slashes and the shape
    of the node (none for a group), whether the extraction then succeeds or
    fails. *)
Theorem every_node_is_listed h5_file_path (w : world scalar) (root node : h5obj scalar) path :
  stat_path (fs w) h5_file_path = Some (ContainerFile root) ->
  path <> [] ->
  h5_node root path = Some node ->
  StructureLine (node_name "" path) (node_shape node)
    ∈ console (snd (extract_h5_weights h5_file_path w)).
Proof.
  intros Hstat Hpath Hnode.
  assert (Hlines : forall path prefix (obj : h5obj scalar),
             path <> [] -> h5_node obj path = Some node ->
             StructureLine (node_name prefix path) (node_shape node)
               ∈ structure_lines prefix obj).
  { clear. induction path as [|n path IH]; intros prefix obj Hpath Hnode; [congruence|].
    cbn [h5_node] in Hnode. destruct obj as [members|? ?]; [|discriminate].
    destruct (lookup_member n members) as [child|] eqn:Hn; [|discriminate].
    destruct (structure_lines_member prefix n child members Hn) as [Hline Hbelow].
    unfold node_name. cbn [fold_left]. destruct path as [|n' path].
    - cbn in Hnode. injection Hnode as <-. exact Hline.
    - apply Hbelow. apply IH; [discriminate|exact Hnode]. }
  rewrite (extract_h5_weights_opened _ _ root Hstat).
  destruct (oblivious_try_block root
              (∅, after_dump h5_file_path root w) (∅, after_dump h5_file_path root w))
    as (_ & _ & _ & log & Hlog); [split; reflexivity|].
  assert (Hin : StructureLine (node_name "" path) (node_shape node)
                  ∈ console (after_dump h5_file_path root w)).
  { unfold after_dump. cbn [console]. rewrite !elem_of_app. right. right.
    now apply Hlines. }
  destruct (try_block root _) as [[[]|e] [ws w1]]; cbn [fst snd console] in *;
    rewrite Hlog, ?elem_of_app; auto.
Qed.

(** X12.  A source that exists but does not open as a container (a
    directory, a file that is no container) is not a handled failure:
    [h5py.File] raises outside the [try], the Extractor raises and leaves the
    world as it was, and the driver stops at that entry with only its banner
    printed; the rest of the list is not run. *)
Theorem source_that_is_no_container_aborts
    base model_name h5_path rest (w : world scalar) entry :
  stat_path (fs w) h5_path = Some entry ->
  (forall root, entry <> ContainerFile root) ->
  exists e,
    extract_h5_weights h5_path w = (Raise e, w)
    /\ convert_models float32_bits base ((model_name, h5_path) :: rest) w
       = (Raise e, mk_world (fs w) (console w ++ [Converting model_name])).
Proof.
  intros Hstat Hentry.
  assert (He : exists e, forall w0 : world scalar, fs w0 = fs w ->
                 extract_h5_weights h5_path w0 = (Raise e, w0)).
  { destruct entry as [| |root].
    - exists IsADirectoryError. intros w0 Hw0.
      unfold extract_h5_weights, bind, h5py_File. now rewrite Hw0, Hstat.
    - exists OSError. intros w0 Hw0.
      unfold extract_h5_weights, bind, h5py_File. now rewrite Hw0, Hstat.
    - now destruct (Hentry root). }
  destruct He as [e He]. exists e. split; [now apply He|].
  cbn [convert_models]. unfold bind at 1. rewrite convert_model_run. cbv zeta.
  rewrite Hstat. now rewrite He.
Qed.

Lemma makedirs_from_creates todo :
  forall walked (files files' : gmap (list string) (fsentry scalar)) r,
  makedirs_from walked todo files = (r, files') ->
  forall p e, files !! p = None -> files' !! p = Some e -> e = Directory.
Proof.
  induction todo as [|c todo IH]; intros walked files files' r Hrun p e Hp Hp';
    cbn [makedirs_from] in Hrun.
  - injection Hrun as _ <-. congruence.
  - destruct (files !! (walked ++ [c])) as [[| |]|] eqn:Hhere.
    + eapply IH; eauto.
    + injection Hrun as _ <-. congruence.
    + injection Hrun as _ <-. congruence.
    + destruct (decide (p = walked ++ [c])) as [->|Hne].
      * pose proof (makedirs_from_keeps _ _ _ _ _ Hrun (walked ++ [c]) Directory
                      (lookup_insert_eq _ _ _)) as Hkept.
        congruence.
      * eapply IH; [exact Hrun| |exact Hp']. now rewrite lookup_insert_ne.
Qed.

Lemma convert_model_creates base model_name h5_path (w : world scalar) :
  created_outside [bin_file (os_path_join base model_name)] (fs w)
    (fs (snd (convert_model float32_bits base (model_name, h5_path) w))).
Proof.
  intros p e Hp. rewrite convert_model_run. cbv zeta.
  destruct (stat_path (fs w) h5_path) as [entry|]; [|cbn [snd fs]; congruence].
  set (w0 := mk_world (fs w) (console w ++ [Converting model_name])).
  destruct (extract_h5_weights_outcome h5_path w0) as (_ & Hfs & _).
  change (fs w0) with (fs w) in Hfs.
  destruct (extract_h5_weights h5_path w0) as [[[weights|]|e0] w1]; cbn [snd fs] in *;
    try (rewrite Hfs; congruence).
  unfold os_makedirs.
  destruct (bool_decide (os_path_join base model_name = "")).
  { cbn [snd]. rewrite Hfs. congruence. }
  destruct (makedirs_from [] (components (os_path_join base model_name)) (fs w1))
    as [r2 files2] eqn:Hmk.
  rewrite Hfs in Hmk.
  assert (H2 : forall e2, files2 !! p = Some e2 -> e2 = Directory)
    by (intros e2; now apply (makedirs_from_creates _ _ _ _ _ Hmk)).
  destruct r2 as [[]|e2]; [|cbn [snd fs]; intros H; left; now apply H2].
  destruct (create_tfjs_weights float32_bits weights (os_path_join base model_name)
              (mk_world files2 (console w1))) as [r3 w3] eqn:Hpack.
  pose proof (create_tfjs_weights_other_paths float32_bits _ _ _ _ _ Hpack) as Hother.
  cbn [fs] in Hother.
  assert (H3 : fs w3 !! p = Some e -> e = Directory
                                      \/ p ∈ [bin_file (os_path_join base model_name)]).
  { destruct (decide (p = bin_file (os_path_join base model_name))) as [->|Hne].
    - intros _. right. left.
    - rewrite Hother by exact Hne. intros H. left. now apply H2. }
  destruct r3; exact H3.
Qed.

Lemma convert_models_creates base jobs :
  forall w : world scalar,
  created_outside (bin_files base jobs) (fs w)
    (fs (snd (convert_models float32_bits base jobs w))).
Proof.
  induction jobs as [|[model_name h5_path] jobs IH]; intros w p e Hp; cbn [convert_models].
  - cbn [snd ret fst]. unfold ret. cbn. congruence.
  - unfold bind.
    pose proof (convert_model_creates base model_name h5_path w p) as H1.
    pose proof (convert_models_keeps float32_bits base jobs) as Hkeep.
    destruct (convert_model float32_bits base (model_name, h5_path) w) as [[[]|e1] w1];
      cbn [snd] in *.
    + intros Hfinal. destruct (fs w1 !! p) as [e1|] eqn:Hmid.
      * destruct (H1 e1 Hp eq_refl) as [->|Hbin].
        -- destruct (Hkeep w1 p Directory Hmid) as [H|[Hbin _]].
           ++ left. congruence.
           ++ right. cbn [bin_files map]. now right.
        -- right. apply list_elem_of_singleton in Hbin as ->. left.
      * destruct (IH w1 p e Hmid Hfinal) as [?|Hbin]; [now left|].
        right. cbn [bin_files map]. now right.
    + intros Hfinal. destruct (H1 e Hp Hfinal) as [?|Hbin]; [now left|].
      right. apply list_elem_of_singleton in Hbin as ->. left.
Qed.

Lemma convert_model_no_new_container base model_name h5_path (w : world scalar) root p :
  fs (snd (convert_model float32_bits base (model_name, h5_path) w)) !! p
  = Some (ContainerFile root) ->
  fs w !! p = Some (ContainerFile root).
Proof.
  intros Hw1. destruct (fs w !! p) as [e0|] eqn:Hp0.
  - destruct (convert_model_keeps float32_bits base model_name h5_path w p e0 Hp0)
      as [H|(_ & content & H)]; congruence.
  - destruct (convert_model_creates base model_name h5_path w p _ Hp0 Hw1)
      as [?|Hbin]; [discriminate|].
    apply list_elem_of_singleton in Hbin as ->.
    destruct (convert_model float32_bits base (model_name, h5_path) w) as [r w1] eqn:Hrun.
    cbn [snd] in Hw1. exfalso. revert Hrun. rewrite convert_model_run. cbv zeta.
    destruct (stat_path (fs w) h5_path) as [entry|];
      [|intros [= _ <-]; cbn [fs] in Hw1; congruence].
    set (w0 := mk_world (fs w) (console w ++ [Converting model_name])).
    destruct (extract_h5_weights_outcome h5_path w0) as (_ & Hfs & _).
    change (fs w0) with (fs w) in Hfs.
    destruct (extract_h5_weights h5_path w0) as [[[weights|]|e0] wa]; cbn [snd fs] in *;
      try (intros [= _ <-]; cbn [fs] in Hw1; congruence).
    destruct (os_makedirs (os_path_join base model_name) wa) as [r2 w2] eqn:Hmk.
    assert (H2 : fs w2 !! bin_file (os_path_join base model_name)
                 <> Some (ContainerFile root)).
    { intros H2. revert Hmk. unfold os_makedirs.
      destruct (bool_decide _); [intros [= _ <-]; congruence|].
      destruct (makedirs_from _ _ _) as [r' files'] eqn:Hfrom. intros [= _ <-].
      cbn [fs] in H2. rewrite Hfs in Hfrom.
      pose proof (makedirs_from_creates _ _ _ _ _ Hfrom _ _ Hp0 H2). discriminate. }
    destruct r2 as [[]|e2]; [|intros [= _ <-]; congruence].
    destruct (create_tfjs_weights_cases float32_bits weights
                (os_path_join base model_name) w2) as [[e3 He3]|Hok].
    + rewrite He3. intros [= _ <-]. congruence.
    + rewrite Hok. intros [= _ <-]. cbn [fs] in Hw1.
      rewrite lookup_insert_eq in Hw1. discriminate.
Qed.

Lemma convert_models_no_new_container base jobs :
  forall (w : world scalar) root p,
  fs (snd (convert_models float32_bits base jobs w)) !! p = Some (ContainerFile root) ->
  fs w !! p = Some (ContainerFile root).
Proof.
  induction jobs as [|[model_name h5_path] jobs IH]; intros w root p;
    cbn [convert_models]; [now cbn|].
  unfold bind.
  pose proof (convert_model_no_new_container base model_name h5_path w root p) as Hone.
  destruct (convert_model float32_bits base (model_name, h5_path) w) as [[[]|e1] w1];
    cbn [snd] in *; [|exact Hone].
  intros Hfinal. apply Hone. now apply IH.
Qed.

(** X13.  All the driver ever adds to the file system is directories and the
    jobs' binary files: an entry that was not there before the run and is
    there after it is a directory, or the [group1-shard1of1.bin] of one of
    the jobs, a regular file.  The manifest is written nowhere. *)
Theorem driver_creates_directories_and_binaries_only
    base jobs (w : world scalar) p e :
  fs w !! p = None ->
  fs (snd (convert_models float32_bits base jobs w)) !! p = Some e ->
  e = Directory
  \/ (p ∈ bin_files base jobs /\ exists content, e = RegularFile content).
Proof.
  intros Hp Hfinal.
  destruct (convert_models_creates base jobs w p e Hp Hfinal) as [?|Hbin]; [now left|].
  destruct e as [|content|root]; [now left|right; eauto|].
  apply convert_models_no_new_container in Hfinal. congruence.
Qed.

End DumpAndCreation.

(** ** The further properties at concrete inputs *)

(** X1 at [/in/broken.h5]: the guarded block fails, the files are as before. *)
Lemma X1_witness :
  fs (snd (extract_h5_weights "/in/broken.h5" boot)) = fs boot
  /\ fst (extract_h5_weights "/in/broken.h5" (mk_world disk [Converting "x"]))
     = fst (extract_h5_weights "/in/broken.h5" boot).
Proof.
  destruct (extractor_is_read_only "/in/broken.h5" boot) as (Hfs & _ & Hsame).
  split; [exact Hfs|]. apply Hsame. reflexivity.
Defined.

(** X2 at [/in/bare.h5]. *)
Lemma X2_witness :
  stat_path disk_with_bare "/in/bare.h5"
  = Some (ContainerFile (H5Group [ ("optimizer", H5Group [ ("vars", H5Group []) ]) ]))
  /\ lookup_member (scalar := Z) "layers" [ ("optimizer", H5Group [ ("vars", H5Group []) ]) ]
     = None
  /\ fst (extract_h5_weights "/in/bare.h5" (mk_world disk_with_bare [])) = Ok None.
Proof.
  assert (H1 : stat_path (fs (mk_world disk_with_bare [])) "/in/bare.h5"
               = Some (ContainerFile
                         (H5Group [ ("optimizer", H5Group [ ("vars", H5Group []) ]) ])))
    by (vm_compute; reflexivity).
  assert (H2 : lookup_member (scalar := Z) "layers"
                 [ ("optimizer", H5Group [ ("vars", H5Group []) ]) ] = None)
    by (vm_compute; reflexivity).
  split; [exact H1|]. split; [exact H2|].
  now rewrite (missing_layers_group_gives_None "/in/bare.h5" _ _ H1 H2).
Defined.

(** X3 at [/in/one.h5]: the kernel of [dense] is the dataset [vars/0]. *)
Lemma X3_witness :
  stat_path (fs boot) "/in/one.h5" = Some (ContainerFile container_one_layer)
  /\ exists weights w',
       extract_h5_weights "/in/one.h5" boot = (Ok (Some weights), w')
       /\ weights !! ("dense" +:+ "/kernel")
          = dataset_array (h5_node container_one_layer ["layers"; "dense"; "vars"; "0"]).
Proof.
  assert (Hstat : stat_path (fs boot) "/in/one.h5"
                  = Some (ContainerFile container_one_layer))
    by (vm_compute; reflexivity).
  assert (Hrun : exists weights w',
             extract_h5_weights "/in/one.h5" boot = (Ok (Some weights), w'))
    by (eexists _, _; vm_compute; reflexivity).
  split; [exact Hstat|]. destruct Hrun as (weights & w' & Hrun).
  exists weights, w'. split; [exact Hrun|].
  apply (extracted_tensors_are_the_datasets "/in/one.h5" boot w' container_one_layer
           weights Hstat Hrun "dense").
  unfold layer_names. left.
Defined.

(** X4: the Packer in [/out] leaves [/in/one.h5] alone; on the missing
    [/out/m], where [open] raises, it raises and changes nothing. *)
Lemma X4_witness :
  ["in"; "one.h5"] <> bin_file "/out"
  /\ (exists r w',
        create_tfjs_weights keep_bits two_slots "/out" boot = (r, w')
        /\ fs w' !! ["in"; "one.h5"] = fs boot !! ["in"; "one.h5"])
  /\ fst (open_wb (os_path_join "/out/m" "group1-shard1of1.bin") boot)
     = Raise FileNotFoundError
  /\ create_tfjs_weights keep_bits two_slots "/out/m" boot = (Raise FileNotFoundError, boot).
Proof.
  assert (Hne : ["in"; "one.h5"] <> bin_file "/out") by (vm_compute; discriminate).
  assert (Hopen : fst (open_wb (os_path_join "/out/m" "group1-shard1of1.bin") boot)
                  = Raise FileNotFoundError)
    by (vm_compute; reflexivity).
  split; [exact Hne|]. split; [|split; [exact Hopen|]].
  - exists (fst (create_tfjs_weights keep_bits two_slots "/out" boot)),
      (snd (create_tfjs_weights keep_bits two_slots "/out" boot)).
    assert (Hrun : create_tfjs_weights keep_bits two_slots "/out" boot
                   = (fst (create_tfjs_weights keep_bits two_slots "/out" boot),
                      snd (create_tfjs_weights keep_bits two_slots "/out" boot)))
      by apply surjective_pairing.
    split; [exact Hrun|].
    exact (proj1 (packer_touches_one_file keep_bits two_slots "/out" boot _ _ Hrun) _ Hne).
  - assert (Hrun : create_tfjs_weights keep_bits two_slots "/out/m" boot
                   = (fst (create_tfjs_weights keep_bits two_slots "/out/m" boot),
                      snd (create_tfjs_weights keep_bits two_slots "/out/m" boot)))
      by apply surjective_pairing.
    destruct (proj1 (proj2 (packer_touches_one_file keep_bits two_slots "/out/m" boot
                              _ _ Hrun)) _ Hopen) as [Hr Hw].
    rewrite Hrun. now rewrite Hr, Hw.
Defined.

(** X5: the bias of the two-slot WeightSet is announced at offset 48. *)
Lemma X5_witness :
  map_Forall (fun _ arr => ndarray_wf arr) two_slots
  /\ exists specs w',
       create_tfjs_weights keep_bits two_slots "/out" boot = (Ok specs, w')
       /\ Written "dense/bias" (slot_shape two_slots "dense/bias")
            (length (concat (map (slot_bytes keep_bits two_slots) ["dense/kernel"])))
          ∈ console w'.
Proof.
  split; [exact two_slots_wf|].
  assert (Hrun : exists specs w',
             create_tfjs_weights keep_bits two_slots "/out" boot = (Ok specs, w'))
    by (eexists _, _; vm_compute; reflexivity).
  destruct Hrun as (specs & w' & Hrun). exists specs, w'. split; [exact Hrun|].
  destruct (packer_reports_offsets keep_bits two_slots "/out" boot w' specs
              two_slots_wf Hrun) as (content & _ & _ & Hoffsets).
  apply (Hoffsets ["dense/kernel"] "dense/bias" []). vm_compute. reflexivity.
Defined.

(** X6: a tensor named [dense_4/kernel] changes nothing. *)
Lemma X6_witness :
  (forall slot, slot ∈ weight_order -> two_slots_and_more !! slot = two_slots !! slot)
  /\ create_tfjs_weights keep_bits two_slots_and_more "/out" boot
     = create_tfjs_weights keep_bits two_slots "/out" boot.
Proof.
  assert (Hagree : forall slot, slot ∈ weight_order ->
                     two_slots_and_more !! slot = two_slots !! slot).
  { intros slot Hin. unfold two_slots_and_more. apply lookup_insert_ne. intros <-.
    unfold weight_order in Hin.
    repeat (apply elem_of_cons in Hin as [Heq|Hin]; [discriminate Heq|]).
    inversion Hin. }
  split; [exact Hagree|].
  exact (packer_reads_only_the_eight_slots keep_bits _ _ "/out" boot Hagree).
Defined.

Lemma one_layer_well_kinded :
  forall l, l ∈ layer_names -> layer_well_kinded container_one_layer l.
Proof.
  intros l Hl. unfold layer_names in Hl.
  repeat (apply elem_of_cons in Hl as [->|Hl]); [| | | |inversion Hl];
    vm_compute; tauto.
Qed.

(** X7: the job on [/in/one.h5] leaves the kernel, then the bias, of [dense]. *)
Lemma X7_witness :
  stat_path (fs boot) "/in/one.h5" = Some (ContainerFile container_one_layer)
  /\ h5_node container_one_layer ["layers"] = Some (H5Group [("dense", layer_with_both)])
  /\ (forall l, l ∈ layer_names -> layer_well_kinded container_one_layer l)
  /\ exists w',
       convert_model keep_bits "/out" ("one", "/in/one.h5") boot = (Ok tt, w')
       /\ fs w' !! bin_file (os_path_join "/out" "one")
          = Some (RegularFile
                    (concat (map (fun l => node_bytes keep_bits container_one_layer l "0"
                                           ++ node_bytes keep_bits container_one_layer l "1")
                                 layer_names))).
Proof.
  assert (Hstat : stat_path (fs boot) "/in/one.h5"
                  = Some (ContainerFile container_one_layer))
    by (vm_compute; reflexivity).
  assert (Hlayers : h5_node container_one_layer ["layers"]
                    = Some (H5Group [("dense", layer_with_both)]))
    by (vm_compute; reflexivity).
  assert (Hrun : exists w',
             convert_model keep_bits "/out" ("one", "/in/one.h5") boot = (Ok tt, w'))
    by (eexists; vm_compute; reflexivity).
  split; [exact Hstat|]. split; [exact Hlayers|]. split; [exact one_layer_well_kinded|].
  destruct Hrun as (w' & Hrun). exists w'. split; [exact Hrun|].
  exact (converted_file_holds_the_datasets keep_bits "/out" "one" "/in/one.h5" boot w'
           container_one_layer _ Hstat Hlayers one_layer_well_kinded Hrun).
Defined.

(** X8: the job on [/in/one.h5] keeps [/in/notes.txt]. *)
Lemma X8_witness :
  fs boot !! ["in"; "notes.txt"] = Some (RegularFile [104; 105])
  /\ (["in"; "notes.txt"] ∉ bin_files "/out" [("one", "/in/one.h5")])
  /\ fs (snd (convert_models keep_bits "/out" [("one", "/in/one.h5")] boot))
       !! ["in"; "notes.txt"] = Some (RegularFile [104; 105]).
Proof.
  assert (H1 : fs boot !! ["in"; "notes.txt"] = Some (RegularFile [104; 105]))
    by (vm_compute; reflexivity).
  assert (H2 : ["in"; "notes.txt"] ∉ bin_files "/out" [("one", "/in/one.h5")]).
  { intros Hin. apply list_elem_of_singleton in Hin. vm_compute in Hin. discriminate Hin. }
  split; [exact H1|]. split; [exact H2|].
  destruct (proj1 (driver_keeps_existing_entries keep_bits "/out" [("one", "/in/one.h5")]
                     boot _ _ H1)) as [H|[Hin _]]; [exact H|contradiction].
Defined.

(** X9: the job on [/in/one.h5], run twice. *)
Lemma X9_witness :
  components "/in/one.h5" <> bin_file (os_path_join "/out" "one")
  /\ extraction_outcome (fs boot) "/in/one.h5" = Ok (Some two_slots)
  /\ exists w1 w2,
       convert_model keep_bits "/out" ("one", "/in/one.h5") boot = (Ok tt, w1)
       /\ convert_model keep_bits "/out" ("one", "/in/one.h5") w1 = (Ok tt, w2)
       /\ fs w2 = fs w1.
Proof.
  assert (H1 : components "/in/one.h5" <> bin_file (os_path_join "/out" "one"))
    by (vm_compute; discriminate).
  assert (H2 : extraction_outcome (fs boot) "/in/one.h5" = Ok (Some two_slots))
    by (vm_compute; reflexivity).
  assert (Hrun : exists w1,
             convert_model keep_bits "/out" ("one", "/in/one.h5") boot = (Ok tt, w1))
    by (eexists; vm_compute; reflexivity).
  split; [exact H1|]. split; [exact H2|]. destruct Hrun as (w1 & Hrun).
  destruct (converting_again_changes_nothing keep_bits "/out" "one" "/in/one.h5" boot w1
              two_slots H1 H2 Hrun) as (w2 & Hagain & Hsame).
  exists w1, w2. auto.
Defined.

(** X10 in a world with no file at all. *)
Lemma X10_witness :
  (forall job, job ∈ models -> stat_path (fs nothing) (snd job) = None)
  /\ fst (main keep_bits nothing) = Ok tt
  /\ fs (snd (main keep_bits nothing)) = fs nothing.
Proof.
  assert (H : forall job, job ∈ models -> stat_path (fs nothing) (snd job) = None).
  { intros job Hjob. unfold models in Hjob.
    repeat (apply elem_of_cons in Hjob as [->|Hjob]); [| | |inversion Hjob];
      vm_compute; reflexivity. }
  split; [exact H|]. now rewrite (main_without_sources keep_bits nothing H).
Defined.

(** X11 at [/in/one.h5]: the bias dataset of [dense] has its line. *)
Lemma X11_witness :
  stat_path (fs boot) "/in/one.h5" = Some (ContainerFile container_one_layer)
  /\ ["layers"; "dense"; "vars"; "1"] <> []
  /\ h5_node container_one_layer ["layers"; "dense"; "vars"; "1"]
     = Some (H5Dataset [3]%nat (Ok bias_3))
  /\ StructureLine (node_name "" ["layers"; "dense"; "vars"; "1"])
       (node_shape (H5Dataset [3]%nat (Ok bias_3)))
     ∈ console (snd (extract_h5_weights "/in/one.h5" boot)).
Proof.
  assert (H1 : stat_path (fs boot) "/in/one.h5" = Some (ContainerFile container_one_layer))
    by (vm_compute; reflexivity).
  assert (H2 : ["layers"; "dense"; "vars"; "1"] <> @nil string) by discriminate.
  assert (H3 : h5_node container_one_layer ["layers"; "dense"; "vars"; "1"]
               = Some (H5Dataset [3]%nat (Ok bias_3)))
    by (vm_compute; reflexivity).
  split; [exact H1|]. split; [exact H2|]. split; [exact H3|].
  exact (every_node_is_listed "/in/one.h5" boot container_one_layer _ _ H1 H2 H3).
Defined.

(** X12 at [/in/notes.txt], followed by a job that would convert. *)
Lemma X12_witness :
  stat_path (fs boot) "/in/notes.txt" = Some (RegularFile [104; 105])
  /\ (forall root, RegularFile [104; 105] <> ContainerFile (scalar := Z) root)
  /\ exists e,
       extract_h5_weights "/in/notes.txt" boot = (Raise e, boot)
       /\ convert_models keep_bits "/out"
            [("bad", "/in/notes.txt"); ("one", "/in/one.h5")] boot
          = (Raise e, mk_world (fs boot) (console boot ++ [Converting "bad"])).
Proof.
  assert (H1 : stat_path (fs boot) "/in/notes.txt" = Some (RegularFile [104; 105]))
    by (vm_compute; reflexivity).
  assert (H2 : forall root, RegularFile [104; 105] <> ContainerFile (scalar := Z) root)
    by discriminate.
  split; [exact H1|]. split; [exact H2|].
  exact (source_that_is_no_container_aborts keep_bits "/out" "bad" "/in/notes.txt"
           [("one", "/in/one.h5")] boot _ H1 H2).
Defined.

(** X13: what the job on [/in/one.h5] adds at [/out/one] is a directory. *)
Lemma X13_witness :
  fs boot !! ["out"; "one"] = None
  /\ exists e,
       fs (snd (convert_models keep_bits "/out" [("one", "/in/one.h5")] boot))
         !! ["out"; "one"] = Some e
       /\ (e = Directory
           \/ (["out"; "one"] ∈ bin_files "/out" [("one", "/in/one.h5")]
               /\ exists content, e = RegularFile content)).
Proof.
  assert (H1 : fs boot !! ["out"; "one"] = None) by (vm_compute; reflexivity).
  assert (H2 : exists e,
             fs (snd (convert_models keep_bits "/out" [("one", "/in/one.h5")] boot))
               !! ["out"; "one"] = Some e)
    by (eexists; vm_compute; reflexivity).
  split; [exact H1|]. destruct H2 as [e H2]. exists e. split; [exact H2|].
  exact (driver_creates_directories_and_binaries_only keep_bits "/out"
           [("one", "/in/one.h5")] boot _ _ H1 H2).
Defined.
